(** * Creator-Pulse-AI (FinRegX front end): upload form and results viewer

    A shallow embedding of [UploadPage.jsx] and [ResultsPage.jsx], and of the
    assessment pipeline that the specification places behind the API.

    Conventions of the embedding:
    - a JavaScript string is a [string] of code units below 256 (the Latin-1
      range); [trim] and [toLowerCase] are the ECMAScript functions
      restricted to that range;
    - a value that comes out of JSON or out of a rejected promise is a
      [JsValue]; its numbers are the safe integers;
    - an [async] handler is a computation in a state-and-exception monad over
      the component's React state and a chronological trace of the effects it
      performs (toasts, HTTP requests, timers); the replies of the server are
      a parameter of the handler. *)

From Stdlib Require Import List String Ascii Bool Arith ZArith QArith Lia.
From Stdlib Require Import DecimalString DecimalNat.
Import ListNotations.
Local Open Scope string_scope.
Local Open Scope list_scope.
Set Warnings "-register-all".

(* ================================================================== *)
(** * JavaScript values and string primitives *)
(* ================================================================== *)

Module Js.

(** ECMAScript WhiteSpace and LineTerminator code units below 256:
    TAB, LF, VT, FF, CR, SP and NBSP. *)
Definition isWhiteSpace (c : ascii) : bool :=
  let n := nat_of_ascii c in
  ((n =? 9) || (n =? 10) || (n =? 11) || (n =? 12) || (n =? 13)
   || (n =? 32) || (n =? 160))%nat.

Fixpoint trimStart (s : string) : string :=
  match s with
  | EmptyString => EmptyString
  | String c s' => if isWhiteSpace c then trimStart s' else s
  end.

Fixpoint trimEnd (s : string) : string :=
  match s with
  | EmptyString => EmptyString
  | String c s' =>
      match trimEnd s' with
      | EmptyString => if isWhiteSpace c then EmptyString else String c EmptyString
      | t => String c t
      end
  end.

(** [String.prototype.trim] *)
Definition trim (s : string) : string := trimEnd (trimStart s).

(** Lower-casing of one code unit: A-Z, and the Latin-1 capitals
    U+00C0..U+00DE without the multiplication sign U+00D7. *)
Definition lowerChar (c : ascii) : ascii :=
  let n := nat_of_ascii c in
  if ((65 <=? n) && (n <=? 90)
      || (192 <=? n) && (n <=? 222) && negb (n =? 215))%nat
  then ascii_of_nat (n + 32)
  else c.

(** [String.prototype.toLowerCase] *)
Fixpoint toLowerCase (s : string) : string :=
  match s with
  | EmptyString => EmptyString
  | String c s' => String (lowerChar c) (toLowerCase s')
  end.

(** [String.prototype.endsWith]: the last [length suffix] code units of [s]
    are compared with [suffix]; a suffix longer than [s] never matches. *)
Definition endsWith (s suffix : string) : bool :=
  let n := String.length s in
  let m := String.length suffix in
  (m <=? n)%nat && String.eqb (substring (n - m) m s) suffix.

(** Decimal text of a number, as a template literal prints it. *)
Definition natToString (n : nat) : string :=
  NilZero.string_of_uint (Nat.to_uint n).

Definition intToString (n : Z) : string :=
  NilZero.string_of_int (Z.to_int n).

(** [Number.MAX_SAFE_INTEGER], 2^53 - 1. *)
Definition MAX_SAFE_INTEGER : Z := 9007199254740991.

(** The numbers of the model: the integers between [-MAX_SAFE_INTEGER] and
    [MAX_SAFE_INTEGER], which a double holds exactly and which print as
    their decimal digits. *)
Record SafeInteger : Type := mkSafeInteger {
  integer : Z;
  integer_safe : (Z.abs integer <=? MAX_SAFE_INTEGER)%Z = true
}.

(** JSON-shaped values. Numbers are the safe integers. *)
Inductive JsValue : Type :=
| JUndefined
| JNull
| JBool (b : bool)
| JNum (n : SafeInteger)
| JStr (s : string)
| JArr (elems : list JsValue)
| JObj (props : list (string * JsValue)).

(** ToBoolean *)
Definition truthy (v : JsValue) : bool :=
  match v with
  | JUndefined | JNull => false
  | JBool b => b
  | JNum n => negb (integer n =? 0)%Z
  | JStr s => negb (String.eqb s "")
  | JArr _ | JObj _ => true
  end.

(** [a || b] *)
Definition or_else (a b : JsValue) : JsValue :=
  if truthy a then a else b.

Fixpoint lookup (key : string) (props : list (string * JsValue)) : JsValue :=
  match props with
  | [] => JUndefined
  | (k, v) :: rest => if String.eqb k key then v else lookup key rest
  end.

(** The value thrown by a property read on [null] or [undefined]. *)
Definition TypeError (msg : string) : JsValue :=
  JObj [("name", JStr "TypeError"); ("message", JStr msg)].

(** [v.key] for a key that is no built-in property: [inl] is the thrown
    TypeError. *)
Definition get (v : JsValue) (key : string) : JsValue + JsValue :=
  match v with
  | JUndefined | JNull =>
      inl (TypeError ("Cannot read properties of " ++
                      (match v with JNull => "null" | _ => "undefined" end)))
  | JObj props => inr (lookup key props)
  | _ => inr JUndefined
  end.

(** [v?.key] *)
Definition opt_get (v : JsValue) (key : string) : JsValue :=
  match v with
  | JObj props => lookup key props
  | _ => JUndefined
  end.

(** The text that ToString gives for a value when it returns one;
    [toString_throws] below tells when it throws instead. *)
Fixpoint toStr (v : JsValue) : string :=
  match v with
  | JUndefined => "undefined"
  | JNull => "null"
  | JBool true => "true"
  | JBool false => "false"
  | JNum n => intToString (integer n)
  | JStr s => s
  | JArr elems =>
      String.concat ","
        (map (fun e => match e with
                       | JUndefined | JNull => ""
                       | _ => toStr e
                       end) elems)
  | JObj _ => "[object Object]"
  end.

Fixpoint has_key (key : string) (props : list (string * JsValue)) : bool :=
  match props with
  | [] => false
  | (k, _) :: rest => String.eqb k key || has_key key rest
  end.

(** ToString throws on an object parsed from JSON that has an own key
    [toString]: the value under it is not callable, and the inherited
    [valueOf] returns the object itself. An array joins the texts of its
    elements, so it throws when ToString of an element does. *)
Fixpoint toString_throws (v : JsValue) : bool :=
  match v with
  | JArr elems => existsb toString_throws elems
  | JObj props => has_key "toString" props
  | _ => false
  end.

(** ToString, as a template literal applies it: [inl] is the thrown
    TypeError. *)
Definition ToString (v : JsValue) : JsValue + string :=
  if toString_throws v
  then inl (TypeError "Cannot convert object to primitive value")
  else inr (toStr v).

End Js.
Import Js.

(* ================================================================== *)
(** * Effects of an event handler *)
(* ================================================================== *)

(** A browser [File] as the form uses it: its name and its size in bytes. *)
Record File : Type := mkFile { name : string; size : N }.

(** Body of a POST: a JSON document or a [FormData] entry list. *)
Inductive Body : Type :=
| JsonBody (data : JsValue)
| FormData (entries : list (string * File)).

(** The one kind of callback handed to [setTimeout]. *)
Inductive Callback : Type :=
| Navigate (path : string).

(** What a handler does to the outside world, in the order it does it. *)
Inductive Event : Type :=
| PreventDefault
| ToastError (message : JsValue)
| ToastSuccess (message : JsValue)
| ToastInfo (message : JsValue)
| ConsoleError (label : string) (value : JsValue)
| AxiosPost (url : string) (body : Body) (headers : list (string * string))
| AxiosGet (url : string)
| SetTimeout (callback : Callback) (ms : Z).

(** An upload progress notification; [total] is absent when the length is
    not computable. *)
Record ProgressEvent : Type := mkProgress { loaded : N; total : option N }.

(** How a request ends: the promise resolves with the response [data], or
    it is rejected with an error object of the given properties. *)
Inductive Outcome (D : Type) : Type :=
| Resolved (data : D)
| Rejected (error : list (string * JsValue)).
Arguments Resolved {D} data.
Arguments Rejected {D} error.

Record Reply (D : Type) : Type := mkReply {
  progressEvents : list ProgressEvent;
  outcome : Outcome D
}.
Arguments mkReply {D} _ _.
Arguments progressEvents {D} _.
Arguments outcome {D} _.

Definition is_request (e : Event) : bool :=
  match e with
  | AxiosPost _ _ _ | AxiosGet _ => true
  | _ => false
  end.

Definition is_navigation (e : Event) : bool :=
  match e with
  | SetTimeout (Navigate _) _ => true
  | _ => false
  end.

Definition is_error_toast (e : Event) : bool :=
  match e with
  | ToastError _ => true
  | _ => false
  end.

Definition is_toast (e : Event) : bool :=
  match e with
  | ToastError _ | ToastSuccess _ | ToastInfo _ => true
  | _ => false
  end.

Section Effects.
Context {S : Type}.

(** React state of the component and the trace of effects so far. *)
Record World : Type := mkWorld { state : S; trace : list Event }.

(** A handler body: it transforms the world and either throws ([inl]) or
    returns ([inr]). State written before a throw stays written. *)
Definition M (A : Type) : Type := World -> World * (JsValue + A).

Definition ret {A} (a : A) : M A := fun w => (w, inr a).

Definition bind {A B} (c : M A) (k : A -> M B) : M B :=
  fun w =>
    match c w with
    | (w', inr a) => k a w'
    | (w', inl e) => (w', inl e)
    end.

Definition throw {A} (e : JsValue) : M A := fun w => (w, inl e).

(** [try { body } catch (error) { handler }] *)
Definition try_catch {A} (body : M A) (handler : JsValue -> M A) : M A :=
  fun w =>
    match body w with
    | (w', inl e) => handler e w'
    | r => r
    end.

(** [try { body } finally { final }] *)
Definition try_finally {A} (body : M A) (final : M unit) : M A :=
  fun w =>
    match body w with
    | (w', r) =>
        match final w' with
        | (w'', inr _) => (w'', r)
        | (w'', inl e) => (w'', inl e)
        end
    end.

Definition emit (e : Event) : M unit :=
  fun w => (mkWorld (state w) (trace w ++ [e]), inr tt).

Definition read : M S := fun w => (w, inr (state w)).

Definition update (f : S -> S) : M unit :=
  fun w => (mkWorld (f (state w)) (trace w), inr tt).

(** A property read that may throw. *)
Definition of_get (r : JsValue + JsValue) : M JsValue :=
  match r with
  | inl e => throw e
  | inr v => ret v
  end.

(** A conversion to text that may throw. *)
Definition of_text (r : JsValue + string) : M string :=
  match r with
  | inl e => throw e
  | inr t => ret t
  end.

Fixpoint for_each {A} (f : A -> M unit) (l : list A) : M unit :=
  match l with
  | [] => ret tt
  | x :: rest => bind (f x) (fun _ => for_each f rest)
  end.

Definition when (b : bool) (c : M unit) : M unit :=
  if b then c else ret tt.

(** Runs a handler to its end; an uncaught exception leaves the world as
    it was when thrown. *)
Definition run {A} (c : M A) (w : World) : World := fst (c w).
End Effects.
Arguments World S : clear implicits.
Arguments M S A : clear implicits.

Declare Scope js_scope.
Delimit Scope js_scope with js.
Notation "x <- c ;; k" := (bind c (fun x => k))
  (at level 100, c at next level, right associativity) : js_scope.
Notation "c ;; k" := (bind c (fun _ => k))
  (at level 100, right associativity) : js_scope.
Local Open Scope js_scope.

(** [Array.prototype.filter] with a callback that reads the index. *)
Fixpoint filter_from {A} (p : A -> nat -> bool) (i : nat) (l : list A) : list A :=
  match l with
  | [] => []
  | x :: rest =>
      if p x i then x :: filter_from p (S i) rest else filter_from p (S i) rest
  end.

Definition filter_index {A} (p : A -> nat -> bool) (l : list A) : list A :=
  filter_from p 0 l.

(* ================================================================== *)
(** * UploadPage.jsx *)
(* ================================================================== *)

Module UploadPage.

(** Value of the progress bar: a number, or what [Math.round] returns on a
    division by an absent or zero total. *)
Inductive Progress : Type :=
| PNum (n : Z)
| PNaN
| PInfinity.

Record State : Type := mkState {
  startupName : string;
  contactEmail : string;
  files : list File;
  uploading : bool;
  progress : Progress
}.

(** The [useState] initial values. *)
Definition initial : State := mkState "" "" [] false (PNum 0).

Definition setStartupName (v : string) : M State unit :=
  update (fun s => mkState v (contactEmail s) (files s) (uploading s) (progress s)).
Definition setContactEmail (v : string) : M State unit :=
  update (fun s => mkState (startupName s) v (files s) (uploading s) (progress s)).
Definition setFiles (f : list File -> list File) : M State unit :=
  update (fun s => mkState (startupName s) (contactEmail s) (f (files s))
                           (uploading s) (progress s)).
Definition setUploading (v : bool) : M State unit :=
  update (fun s => mkState (startupName s) (contactEmail s) (files s) v (progress s)).
Definition setProgress (v : Progress) : M State unit :=
  update (fun s => mkState (startupName s) (contactEmail s) (files s) (uploading s) v).

(** The filter predicate of [onDrop]. *)
Definition isValidFile (file : File) : bool :=
  endsWith (toLowerCase (name file)) ".pdf"
  || endsWith (toLowerCase (name file)) ".docx".

(** [onDrop] is modelled on every list of files, whatever the dropzone's
    own [accept] setting lets through. *)
Definition onDrop (acceptedFiles : list File) : M State unit :=
  let validFiles := filter isValidFile acceptedFiles in
  when (negb (List.length validFiles =? List.length acceptedFiles)%nat)
       (emit (ToastError (JStr "Only PDF and DOCX files are accepted"))) ;;
  setFiles (fun prev => prev ++ validFiles) ;;
  emit (ToastSuccess (JStr (natToString (List.length validFiles) ++ " file(s) added"))).

Definition removeFile (index : nat) : M State unit :=
  setFiles (fun prev => filter_index (fun _ i => negb (i =? index)%nat) prev) ;;
  emit (ToastInfo (JStr "File removed")).

(** [Math.round(50 + (loaded * 40) / total)], computed over the rationals;
    [Math.round] rounds halves up. An absent total gives NaN, a zero total
    gives NaN or Infinity. *)
Definition percentCompleted (ev : ProgressEvent) : Progress :=
  match total ev with
  | None => PNaN
  | Some t =>
      if (t =? 0)%N then (if (loaded ev =? 0)%N then PNaN else PInfinity)
      else
        let l := Z.of_N (loaded ev) in
        let t := Z.of_N t in
        PNum ((2 * (50 * t + 40 * l) + t) / (2 * t))
  end.

(** The [disabled] attribute of the submit button:
    [uploading || files.length === 0 || !startupName.trim()]. *)
Definition submitDisabled (st : State) : bool :=
  uploading st
  || (List.length (files st) =? 0)%nat
  || negb (truthy (JStr (trim (startupName st)))).

(** The invariant of the pending-file list: every name passes the filter. *)
Definition all_valid (w : World State) : Prop :=
  Forall (fun file => isValidFile file = true) (files (state w)).

Section Component.
(** [process.env.REACT_APP_BACKEND_URL] *)
Variable BACKEND_URL : JsValue.
(** The server: what a POST of a body to a URL is answered with. *)
Variable server : string -> Body -> Reply JsValue.

(** A value of [process.env] is a string or undefined, on which ToString
    does not throw. *)
Definition API : string := toStr BACKEND_URL ++ "/api".

(** [axios.post(url, body, config)]: the request is sent, the progress
    callback of the config (if any) runs for each notification, and the
    promise resolves with a response object or rejects with the error. *)
Definition axios_post (url : string) (body : Body)
    (headers : list (string * string))
    (onUploadProgress : option (ProgressEvent -> M State unit))
    : M State JsValue :=
  emit (AxiosPost url body headers) ;;
  let reply := server url body in
  match onUploadProgress with
  | Some callback => for_each callback (progressEvents reply)
  | None => ret tt
  end ;;
  match outcome reply with
  | Resolved data => ret (JObj [("data", data)])
  | Rejected error => throw (JObj error)
  end.

(** The id is put into the upload URL by a template literal, which may
    throw; the timer's callback puts it into the path the same way, to the
    same text. *)
Definition handleSubmit : M State unit :=
  emit PreventDefault ;;
  st <- read ;;
  if negb (truthy (JStr (trim (startupName st)))) then
    emit (ToastError (JStr "Please enter your startup name"))
  else if (List.length (files st) =? 0)%nat then
    emit (ToastError (JStr "Please upload at least one document"))
  else
    try_catch
      (setUploading true ;;
       setProgress (PNum 10) ;;
       assessmentResponse <-
         axios_post (API ++ "/assessments")
           (JsonBody (JObj [("startup_name", JStr (startupName st));
                            ("contact_email",
                             or_else (JStr (contactEmail st)) JNull)]))
           [] None ;;
       data <- of_get (get assessmentResponse "data") ;;
       assessmentId <- of_get (get data "id") ;;
       setProgress (PNum 30) ;;
       let formData := FormData (map (fun file => ("files", file)) (files st)) in
       setProgress (PNum 50) ;;
       idText <- of_text (ToString assessmentId) ;;
       uploadResponse <-
         axios_post (API ++ "/assessments/" ++ idText ++ "/upload")
           formData
           [("Content-Type", "multipart/form-data")]
           (Some (fun progressEvent =>
                    setProgress (percentCompleted progressEvent))) ;;
       setProgress (PNum 100) ;;
       emit (ToastSuccess (JStr "Documents analyzed successfully!")) ;;
       emit (SetTimeout (Navigate ("/results/" ++ idText)) 500))
      (fun error =>
         emit (ConsoleError "Upload error:" error) ;;
         emit (ToastError
                 (or_else (opt_get (opt_get (opt_get error "response") "data")
                                   "detail")
                          (JStr "Failed to process documents"))) ;;
         setUploading false ;;
         setProgress (PNum 0)).

(** ** Vocabulary of the statements about [handleSubmit] *)

(** The creation request: [POST {API}/assessments] with the entered name and
    the entered email, or [null] for an empty email. *)
Definition createUrl : string := API ++ "/assessments".

Definition createBody (st : State) : Body :=
  JsonBody
    (JObj [("startup_name", JStr (startupName st));
           ("contact_email",
            if String.eqb (contactEmail st) "" then JNull
            else JStr (contactEmail st))]).

(** The upload request for an assessment id whose ToString returns: the
    pending files, in order, each under the field [files]. *)
Definition uploadUrl (assessmentId : JsValue) : string :=
  API ++ "/assessments/" ++ toStr assessmentId ++ "/upload".

Definition uploadBody (st : State) : Body :=
  FormData (map (fun file => ("files", file)) (files st)).

Definition uploadRequest (st : State) (assessmentId : JsValue) : Event :=
  AxiosPost (uploadUrl assessmentId) (uploadBody st)
            [("Content-Type", "multipart/form-data")].

Definition resultsPath (assessmentId : JsValue) : string :=
  "/results/" ++ toStr assessmentId.

(** [error.response?.data?.detail] *)
Definition detail_of (error : JsValue) : JsValue :=
  opt_get (opt_get (opt_get error "response") "data") "detail".

(** The toast of [onDrop] for a drop that holds a file of another type. *)
Definition rejection_toast : Event :=
  ToastError (JStr "Only PDF and DOCX files are accepted").

(** What the [catch] block emits for a caught [error]. *)
Definition failure_events (error : JsValue) : list Event :=
  [ConsoleError "Upload error:" error;
   ToastError (or_else (detail_of error) (JStr "Failed to process documents"))].

(** The form back in its idle state, the inputs kept. *)
Definition reset (st : State) : State :=
  mkState (startupName st) (contactEmail st) (files st) false (PNum 0).

(** The form is ready to be submitted: a name that is not blank and at
    least one pending file. *)
Definition submittable (st : State) : Prop :=
  trim (startupName st) <> "" /\ files st <> [].

(** How a submission of a ready form ends, as the replies decide:
    the creation call fails, it resolves with a body whose [id] cannot be
    read or cannot be put into the upload URL, the upload call fails, or
    both calls resolve. *)
Inductive Ending : Type :=
| CreateRejected (error : JsValue)
| CreateUnreadable (error : JsValue)
| UploadRejected (assessmentId : JsValue) (error : JsValue)
| Uploaded (assessmentId : JsValue).

Definition ending (st : State) : Ending :=
  match outcome (server createUrl (createBody st)) with
  | Rejected error => CreateRejected (JObj error)
  | Resolved data =>
      match get data "id" with
      | inl e => CreateUnreadable e
      | inr assessmentId =>
          match ToString assessmentId with
          | inl e => CreateUnreadable e
          | inr _ =>
              match outcome (server (uploadUrl assessmentId) (uploadBody st)) with
              | Rejected error => UploadRejected assessmentId (JObj error)
              | Resolved _ => Uploaded assessmentId
              end
          end
      end
  end.

(** One of the two API calls of a submission is rejected with [error]:
    the creation call, or the upload call that follows a creation whose
    reply carries a readable [id] that ToString turns into text. *)
Inductive fails_with (st : State) (error : JsValue) : Prop :=
| create_fails props :
    outcome (server createUrl (createBody st)) = Rejected props ->
    error = JObj props ->
    fails_with st error
| upload_fails data assessmentId props :
    outcome (server createUrl (createBody st)) = Resolved data ->
    get data "id" = inr assessmentId ->
    toString_throws assessmentId = false ->
    outcome (server (uploadUrl assessmentId) (uploadBody st)) = Rejected props ->
    error = JObj props ->
    fails_with st error.

(** What the user can do on the page. *)
Inductive Action : Type :=
| TypeName (v : string)
| TypeEmail (v : string)
| Drop (acceptedFiles : list File)
| Remove (index : nat)
| Submit.

Definition handle (a : Action) : M State unit :=
  match a with
  | TypeName v => setStartupName v
  | TypeEmail v => setContactEmail v
  | Drop fs => onDrop fs
  | Remove i => removeFile i
  | Submit => handleSubmit
  end.

(** The worlds the page can be in: the initial one and those reached by
    user actions. *)
Inductive reachable : World State -> Prop :=
| reach_init : reachable (mkWorld initial [])
| reach_step w a : reachable w -> reachable (run (handle a) w).
End Component.

End UploadPage.

(** [Array.prototype.map] with a callback that reads the index. *)
Fixpoint map_from {A B} (f : A -> nat -> B) (i : nat) (l : list A) : list B :=
  match l with
  | [] => []
  | x :: rest => f x i :: map_from f (S i) rest
  end.

Definition map_index {A B} (f : A -> nat -> B) (l : list A) : list B :=
  map_from f 0 l.

(* ================================================================== *)
(** * ResultsPage.jsx *)
(* ================================================================== *)

Module ResultsPage.

(** The persisted assessment as the page destructures it: [score] and
    [recommendations] are objects and [gaps] is an array, as for every
    completed assessment of the data model; the two recommendation lists
    may be absent from the JSON. *)
Module Gap.
Record t : Type := mk {
  article_name : string;
  severity : string;
  category : string;
  description : string;
  requirement : string;
  recommendation : string
}.
End Gap.

Module Expert.
Record t : Type := mk {
  name : string;
  specialization : string;
  contact : string;
  relevant_articles : list string
}.
End Expert.

Module Program.
Record t : Type := mk {
  name : string;
  description : string;
  duration : string;
  focus_areas : list string;
  website : string
}.
End Program.

Record Recommendations : Type := mkRecommendations {
  experts : option (list Expert.t);
  programs : option (list Program.t)
}.

Record Score : Type := mkScore {
  overall_score : Q;
  readiness_level : string;
  category_scores : list (string * Q);
  total_gaps : Z;
  high_severity_gaps : Z;
  medium_severity_gaps : Z;
  low_severity_gaps : Z
}.

Record Assessment : Type := mkAssessment {
  startup_name : string;
  score : Score;
  gaps : list Gap.t;
  recommendations : Recommendations
}.

Record State : Type := mkState {
  loading : bool;
  result : option Assessment
}.

Definition initial : State := mkState true None.

Definition setLoading (v : bool) : M State unit :=
  update (fun s => mkState v (result s)).
Definition setResult (v : option Assessment) : M State unit :=
  update (fun s => mkState (loading s) v).

Section Component.
(** [process.env.REACT_APP_BACKEND_URL] *)
Variable BACKEND_URL : JsValue.
(** The route parameter of [/results/:assessmentId]. *)
Variable assessmentId : string.
(** The server: what a GET of a URL is answered with. The body is an
    assessment of the data model ([Some]), or null or empty ([None]);
    bodies of another shape are outside the model. *)
Variable server : string -> Outcome (option Assessment).

(** A value of [process.env] is a string or undefined, on which ToString
    does not throw. *)
Definition API : string := toStr BACKEND_URL ++ "/api".

(** [axios.get(url)], returning [response.data]. *)
Definition axios_get (url : string) : M State (option Assessment) :=
  emit (AxiosGet url) ;;
  match server url with
  | Resolved data => ret data
  | Rejected error => throw (JObj error)
  end.

Definition fetchResults : M State unit :=
  try_finally
    (try_catch
       (data <- axios_get (API ++ "/assessments/" ++ assessmentId) ;;
        setResult data)
       (fun error =>
          emit (ConsoleError "Error fetching results:" error) ;;
          emit (ToastError (JStr "Failed to load assessment results"))))
    (setLoading false).

(** The URL of the read: [{API}/assessments/{assessmentId}]. *)
Definition assessmentUrl : string := API ++ "/assessments/" ++ assessmentId.
End Component.

Definition getSeverityColor (severity : string) : string :=
  if String.eqb severity "HIGH" then "bg-red-100 text-red-800 border-red-200"
  else if String.eqb severity "MEDIUM" then
    "bg-yellow-100 text-yellow-800 border-yellow-200"
  else if String.eqb severity "LOW" then "bg-blue-100 text-blue-800 border-blue-200"
  else "bg-gray-100 text-gray-800 border-gray-200".

(** A score value is a JSON number, hence a rational; the two comparisons
    with 75 and 50 are exact. *)
Definition getScoreColor (scoreValue : Q) : string :=
  if Qle_bool 75 scoreValue then "text-green-600"
  else if Qle_bool 50 scoreValue then "text-yellow-600"
  else "text-red-600".

(** ** The rendered page *)

Record ScoreRow : Type := mkScoreRow {
  row_label : string;
  row_class : string;
  row_value : Q
}.

Record ScoreCard : Type := mkScoreCard {
  overall_class : string;
  overall_value : Q;
  badge : string;
  rows : list ScoreRow
}.

Record GapsSummary : Type := mkGapsSummary {
  shown_total : Z;
  shown_high : Z;
  shown_medium : Z;
  shown_low : Z
}.

Record GapCard : Type := mkGapCard {
  gap_testid : string;
  borderLeftColor : string;
  badge_class : string;
  gap_shown : Gap.t
}.

(** Content of the gaps tab: the green "no gaps" message or the cards. *)
Inductive GapsTab : Type :=
| NoGaps (headline : string) (subline : string)
| GapCards (cards : list GapCard).

Record ExpertCard : Type := mkExpertCard {
  expert_testid : string;
  expert_shown : Expert.t;
  article_badges : list string
}.

Record ProgramCard : Type := mkProgramCard {
  program_testid : string;
  program_shown : Program.t;
  learn_more : option string
}.

(** Content of the recommendations tab: each section is there or not. *)
Record RecommendationsTab : Type := mkRecommendationsTab {
  expertsSection : option (list ExpertCard);
  programsSection : option (list ProgramCard)
}.

Record Report : Type := mkReport {
  heading : string;
  scoreCard : ScoreCard;
  gapsSummary : GapsSummary;
  gapsTab : GapsTab;
  recommendationsTab : RecommendationsTab
}.

Inductive View : Type :=
| LoadingView
| NotFoundView
| ReportView (report : Report).

Definition renderScoreCard (score : Score) : ScoreCard :=
  mkScoreCard
    (getScoreColor (overall_score score))
    (overall_score score)
    (readiness_level score)
    (map (fun '(category, categoryScore) =>
            mkScoreRow category (getScoreColor categoryScore) categoryScore)
         (category_scores score)).

Definition renderGapsSummary (score : Score) : GapsSummary :=
  mkGapsSummary (total_gaps score) (high_severity_gaps score)
                (medium_severity_gaps score) (low_severity_gaps score).

Definition renderGapsTab (gaps : list Gap.t) : GapsTab :=
  if (List.length gaps =? 0)%nat then
    NoGaps "No compliance gaps detected!"
           "Your startup meets all regulatory requirements"
  else
    GapCards
      (map_index
         (fun gap index =>
            mkGapCard
              ("gap-item-" ++ natToString index)
              (if String.eqb (Gap.severity gap) "HIGH" then "#dc2626"
               else if String.eqb (Gap.severity gap) "MEDIUM" then "#ca8a04"
               else "#2563eb")
              (getSeverityColor (Gap.severity gap))
              gap)
         gaps).

(** [list && list.length > 0 && <Card>...</Card>] *)
Definition renderSection {A B} (items : option (list A))
    (card : A -> nat -> B) : option (list B) :=
  match items with
  | None => None
  | Some l => if (0 <? List.length l)%nat then Some (map_index card l) else None
  end.

Definition renderRecommendationsTab (r : Recommendations) : RecommendationsTab :=
  mkRecommendationsTab
    (renderSection (experts r)
       (fun expert index =>
          mkExpertCard ("expert-item-" ++ natToString index) expert
            (map (fun article => ("Article " ++ article)%string)
                 (Expert.relevant_articles expert))))
    (renderSection (programs r)
       (fun program index =>
          mkProgramCard ("program-item-" ++ natToString index) program
            (if negb (String.eqb (Program.website program) "N/A")
             then Some (Program.website program) else None))).

Definition render (s : State) : View :=
  if loading s then LoadingView
  else
    match result s with
    | None => NotFoundView
    | Some r =>
        ReportView
          (mkReport (startup_name r)
                    (renderScoreCard (score r))
                    (renderGapsSummary (score r))
                    (renderGapsTab (gaps r))
                    (renderRecommendationsTab (recommendations r)))
    end.




End ResultsPage.

(* ================================================================== *)
(** * The assessment pipeline behind the API *)
(* ================================================================== *)

(** The repository holds the presentation layer only; the pipeline that
    fills the [score], [gaps] and [recommendations] of an assessment is
    described by the specification, sections 3 and 4. *)
Module Pipeline.

(** Modelled from the spec: the three-valued coverage of section 3. *)
Inductive Coverage : Type := satisfied | partial | absent.

(** Modelled from the spec: the severity of a gap, section 3. *)
Inductive Severity : Type := HIGH | MEDIUM | LOW.

(** Modelled from the spec: equality test on coverages. *)
Definition Coverage_eqb (a b : Coverage) : bool :=
  match a, b with
  | satisfied, satisfied | partial, partial | absent, absent => true
  | _, _ => false
  end.

(** Modelled from the spec: equality test on severities. *)
Definition Severity_eqb (a b : Severity) : bool :=
  match a, b with
  | HIGH, HIGH | MEDIUM, MEDIUM | LOW, LOW => true
  | _, _ => false
  end.

(** Modelled from the spec: the Rule Catalog entry of section 3 (id, name,
    category, positive weight, requirement text), with the criticality mark
    that sections 3, 4.3 and 8 refer to. *)
Record Article : Type := mkArticle {
  id : string;
  name : string;
  category : string;
  weight : Q;
  requirement : string;
  critical : bool
}.

(** Modelled from the spec: a verdict is (article id, coverage, evidence
    excerpt or none). *)
Record Verdict : Type := mkVerdict {
  article_id : string;
  coverage : Coverage;
  evidence : option string
}.

(** Modelled from the spec: a gap record of section 3. *)
Record Gap : Type := mkGap {
  gap_article : string;
  gap_category : string;
  severity : Severity;
  description : string;
  gap_requirement : string;
  recommendation : string
}.

(** Modelled from the spec: the score record of section 3. *)
Record Score : Type := mkScore {
  overall_score : Q;
  category_scores : list (string * Q);
  readiness_level : string;
  total_gaps : nat;
  high_severity_gaps : nat;
  medium_severity_gaps : nat;
  low_severity_gaps : nat
}.

(** Modelled from the spec: the readiness cut points are configuration
    (section 4.4). *)
Record Rubric : Type := mkRubric {
  ready_from : Q;
  partially_ready_from : Q
}.

Section Stages.
(** Modelled from the spec: the matching capability of section 9,
    [evaluate(text, article) -> coverage, evidence], for a frozen model. *)
Variable evaluate : string -> Article -> Coverage * option string.
(** Modelled from the spec: how severity follows from coverage and the
    article is versioned configuration (section 9, open question), apart
    from the rule for critical articles. *)
Variable severity_policy : Article -> Coverage -> Severity.
(** Modelled from the spec: the texts of a gap (description and
    recommendation) come from the catalog entry and the coverage. *)
Variable gap_texts : Article -> Coverage -> string * string.
(** Modelled from the spec: the configured cut points. *)
Variable rubric : Rubric.

(** Modelled from the spec: the Clause Matcher of section 4.2 evaluates
    every article of the catalog against the normalized text and yields
    one verdict per article. *)
Definition clauseMatcher (text : string) (catalog : list Article)
    : list Verdict :=
  map (fun a => let (c, e) := evaluate text a in mkVerdict (id a) c e)
      catalog.

(** Modelled from the spec: absence on a critical article is always HIGH
    (sections 4.3 and 8); otherwise the configured policy decides. *)
Definition severity_of (a : Article) (c : Coverage) : Severity :=
  if critical a && Coverage_eqb c absent then HIGH else severity_policy a c.

(** Modelled from the spec: the gap for a verdict on an article carries the
    article reference, its category and requirement, and the severity. *)
Definition gap_of (a : Article) (v : Verdict) : Gap :=
  let (d, r) := gap_texts a (coverage v) in
  mkGap (id a) (category a) (severity_of a (coverage v)) d (requirement a) r.

(** Modelled from the spec: the Gap Detector of section 4.3 emits one gap
    for every verdict that is not [satisfied], in catalog order. *)
Definition gapDetector (catalog : list Article) (verdicts : list Verdict)
    : list Gap :=
  flat_map
    (fun a =>
       map (gap_of a)
           (filter (fun v => String.eqb (article_id v) (id a)
                             && negb (Coverage_eqb (coverage v) satisfied))
                   verdicts))
    catalog.

(** Modelled from the spec: satisfied=100, partial=50, absent=0. *)
Definition value_of (c : Coverage) : Q :=
  match c with
  | satisfied => 100
  | partial => 50
  | absent => 0
  end.

(** Modelled from the spec: the coverage recorded for an article; an
    article without a verdict has no evidence, which is [absent]
    (section 4.2). *)
Definition coverage_for (verdicts : list Verdict) (a : Article) : Coverage :=
  match find (fun v => String.eqb (article_id v) (id a)) verdicts with
  | Some v => coverage v
  | None => absent
  end.

(** Modelled from the spec: a sum of weights or of weighted values. *)
Definition Qsum (l : list Q) : Q := fold_right Qplus 0 l.

(** Modelled from the spec: the articles of one category. *)
Definition in_category (cat : string) (catalog : list Article) : list Article :=
  filter (fun a => String.eqb (category a) cat) catalog.

(** Modelled from the spec: the share of a category is the sum of the
    weights of its articles (section 3). *)
Definition share (catalog : list Article) (cat : string) : Q :=
  Qsum (map weight (in_category cat catalog)).

(** Modelled from the spec: category score = weighted average of its
    articles' values, weights renormalized within the category. *)
Definition category_score (catalog : list Article) (verdicts : list Verdict)
    (cat : string) : Q :=
  (Qsum (map (fun a => weight a * value_of (coverage_for verdicts a))
             (in_category cat catalog))
   / share catalog cat)%Q.

(** Modelled from the spec: the category set of the catalog, in catalog
    order. *)
Definition categories (catalog : list Article) : list string :=
  nodup string_dec (map category catalog).

(** Modelled from the spec: overall score = weighted average of the
    category scores by each category's share. *)
Definition overall (catalog : list Article) (verdicts : list Verdict) : Q :=
  (Qsum (map (fun cat => share catalog cat * category_score catalog verdicts cat)
             (categories catalog))
   / Qsum (map (share catalog) (categories catalog)))%Q.

(** Modelled from the spec: readiness level is a step function of the
    overall score with the rubric's cut points. *)
Definition readiness (s : Q) : string :=
  if Qle_bool (ready_from rubric) s then "Ready"
  else if Qle_bool (partially_ready_from rubric) s then "Partially Ready"
  else "Not Ready".

(** Modelled from the spec: the number of gaps of one severity. *)
Definition count_severity (sev : Severity) (gaps : list Gap) : nat :=
  List.length (filter (fun g => Severity_eqb (severity g) sev) gaps).

(** Modelled from the spec: the Scorer of section 4.4. Gaps and scores
    derive from the one verdict set; the gap counts count the detector's
    gaps, in all and by severity. *)
Definition scorer (catalog : list Article) (verdicts : list Verdict) : Score :=
  let gaps := gapDetector catalog verdicts in
  let s := overall catalog verdicts in
  mkScore s
          (map (fun cat => (cat, category_score catalog verdicts cat))
               (categories catalog))
          (readiness s)
          (List.length gaps)
          (count_severity HIGH gaps)
          (count_severity MEDIUM gaps)
          (count_severity LOW gaps).

(** Modelled from the spec: one run of the pipeline on a text, match then
    score (section 2, control flow). *)
Definition assess (text : string) (catalog : list Article)
    : list Verdict * Score :=
  let verdicts := clauseMatcher text catalog in
  (verdicts, scorer catalog verdicts).
End Stages.

(** Modelled from the spec: the score record as the read of section 6
    hands it to the results page, the counts as JSON numbers. *)
Definition to_page (s : Score) : ResultsPage.Score :=
  ResultsPage.mkScore
    (overall_score s) (readiness_level s) (category_scores s)
    (Z.of_nat (total_gaps s)) (Z.of_nat (high_severity_gaps s))
    (Z.of_nat (medium_severity_gaps s)) (Z.of_nat (low_severity_gaps s)).

End Pipeline.

(* ================================================================== *)
(** * Sample data *)
(* ================================================================== *)

Module Sample.

Definition backend : JsValue := JStr "https://api.finregx.example".

Definition documents : list File :=
  [mkFile "Business-Plan.PDF" 20480; mkFile "aml-policy.docx" 10240].

Definition form : World UploadPage.State :=
  mkWorld (UploadPage.mkState "Al-Ameen Digital" "" documents false
                              (UploadPage.PNum 0)) [].

Definition blank_form : World UploadPage.State :=
  mkWorld (UploadPage.mkState "   " "founder@example.com" documents false
                              (UploadPage.PNum 0)) [].

Definition created : JsValue :=
  JObj [("id", JStr "a1"); ("status", JStr "pending")].

Definition error_with_detail (detail : string) : list (string * JsValue) :=
  [("message", JStr "Request failed");
   ("response", JObj [("status", JNum (mkSafeInteger 400 eq_refl));
                      ("data", JObj [("detail", JStr detail)])])].

Definition is_create (url : string) : bool :=
  String.eqb url "https://api.finregx.example/api/assessments".

(** Both calls resolve; the upload reports progress twice. *)
Definition server_ok (url : string) (body : Body) : Reply JsValue :=
  if is_create url then mkReply [] (Resolved created)
  else mkReply [mkProgress 1024 (Some 30720%N); mkProgress 30720 (Some 30720%N)]
               (Resolved created).

(** The creation resolves and the upload is rejected with a [detail]. *)
Definition server_upload_fails (detail : string) (url : string) (body : Body)
    : Reply JsValue :=
  if is_create url then mkReply [] (Resolved created)
  else mkReply [mkProgress 1024 (Some 30720%N)]
               (Rejected (error_with_detail detail)).

(** The creation resolves with the given body; the upload resolves. *)
Definition server_creates (body_of_create : JsValue) (url : string) (body : Body)
    : Reply JsValue :=
  if is_create url then mkReply [] (Resolved body_of_create)
  else mkReply [mkProgress 30720 (Some 30720%N)] (Resolved created).

(** Both calls are rejected with the given error object. *)
Definition server_rejects (error : list (string * JsValue)) (url : string)
    (body : Body) : Reply JsValue :=
  mkReply [] (Rejected error).

(** An error without a [response], as for a connection failure. *)
Definition network_error : list (string * JsValue) :=
  [("message", JStr "Network Error"); ("code", JStr "ERR_NETWORK")].

(** An error whose [detail] is a list of validation messages. *)
Definition validation_error : list (string * JsValue) :=
  [("response",
    JObj [("status", JNum (mkSafeInteger 422 eq_refl));
          ("data", JObj [("detail",
                          JArr [JObj [("msg", JStr "field required")]])])])].

Definition results : World ResultsPage.State :=
  mkWorld ResultsPage.initial [].

(** The read is rejected with a [detail]. *)
Definition server_read_fails (detail : string) (url : string)
    : Outcome (option ResultsPage.Assessment) :=
  Rejected (error_with_detail detail).

(** The read resolves with an empty body. *)
Definition server_read_empty (url : string)
    : Outcome (option ResultsPage.Assessment) :=
  Resolved None.

Definition gaps : list ResultsPage.Gap.t :=
  [ResultsPage.Gap.mk "Minimum capital" "HIGH" "Capital"
     "No evidence of paid-up capital" "QAR 10m paid-up capital"
     "Provide audited capital statements";
   ResultsPage.Gap.mk "Board composition" "medium" "Governance"
     "No independent directors named" "Two independent directors"
     "Appoint independent directors"].

Definition clean_assessment : ResultsPage.Assessment :=
  ResultsPage.mkAssessment
    "Al-Ameen Digital"
    (ResultsPage.mkScore 100 "Ready" [("Capital", 100%Q); ("AML", 100%Q)] 0 0 0 0)
    []
    (ResultsPage.mkRecommendations None (Some [])).

Definition server_read_ok (url : string)
    : Outcome (option ResultsPage.Assessment) :=
  Resolved (Some clean_assessment).

End Sample.

(* ================================================================== *)
(** * Facts about the JavaScript primitives *)
(* ================================================================== *)

Example trim_example : trim "  Al-Ameen Digital " = "Al-Ameen Digital".
Proof. reflexivity. Qed.

Example endsWith_example : endsWith (toLowerCase "Plan.PDF") ".pdf" = true.
Proof. reflexivity. Qed.

Example toStr_example :
  toStr (JArr [JNum (mkSafeInteger 12 eq_refl); JNull; JStr "a"]) = "12,,a".
Proof. reflexivity. Qed.

Example ToString_examples :
  (ToString (JStr "a1"), ToString JUndefined,
   ToString (JNum (mkSafeInteger 42 eq_refl)),
   ToString (JObj [("id", JStr "a1")]),
   ToString (JObj [("toString", JStr "a1")]),
   ToString (JArr [JStr "a"; JObj [("toString", JNull)]]))
  = (inr "a1", inr "undefined", inr "42", inr "[object Object]",
     inl (TypeError "Cannot convert object to primitive value"),
     inl (TypeError "Cannot convert object to primitive value")).
Proof. reflexivity. Qed.

Lemma truthy_JStr (s : string) : truthy (JStr s) = negb (String.eqb s "").
Proof. reflexivity. Qed.

Lemma or_else_JStr_JNull (s : string) :
  or_else (JStr s) JNull = if String.eqb s "" then JNull else JStr s.
Proof. unfold or_else; simpl; now destruct (String.eqb s ""). Qed.

(** ** Lists *)

Lemma filter_length_all {A} (p : A -> bool) (l : list A) :
  List.length (filter p l) = List.length l <-> Forall (fun x => p x = true) l.
Proof.
  induction l as [|x l IH]; simpl.
  - split; [constructor | reflexivity].
  - destruct (p x) eqn:Hx; simpl.
    + rewrite Forall_cons_iff, <- IH. split; [intros H; split; [exact Hx | lia] | intros [_ H]; lia].
    + pose proof (filter_length_le p l) as Hle.
      split; [lia | intros H; inversion H; congruence].
Qed.

Lemma not_all_exists {A} (p : A -> bool) (l : list A) :
  ~ Forall (fun x => p x = true) l <-> exists x, In x l /\ p x = false.
Proof.
  induction l as [|x l IH]; simpl.
  - split; [intros H; destruct H; constructor | intros [x [[] _]]].
  - rewrite Forall_cons_iff. destruct (p x) eqn:Hx.
    + split.
      * intros H. destruct (proj1 IH) as [y [Hy Hpy]]; [tauto|]. exists y; auto.
      * intros [y [[<-|Hy] Hpy]] [_ Hall]; [congruence|].
        apply IH; [exists y; auto | exact Hall].
    + split; [exists x; auto | intros _ [H _]; discriminate].
Qed.

Lemma filter_from_In {A} (p : A -> nat -> bool) (l : list A) (i : nat) (x : A) :
  In x (filter_from p i l) -> In x l.
Proof.
  revert i; induction l as [|y l IH]; intros i; simpl; [tauto|].
  destruct (p y i); simpl; intros H; [destruct H as [H|H]|]; eauto.
Qed.

Lemma filter_from_keeps {A} (k : nat) (l : list A) (i : nat) :
  (k < i)%nat -> filter_from (fun _ j => negb (j =? k)%nat) i l = l.
Proof.
  revert i; induction l as [|y l IH]; intros i Hi; simpl; [reflexivity|].
  destruct (Nat.eqb_spec i k); [lia|]. simpl. f_equal. apply IH. lia.
Qed.

(** Filtering out one index deletes the element at that position. *)
Lemma filter_from_deletes {A} (k : nat) (l : list A) (i : nat) :
  filter_from (fun _ j => negb (j =? i + k)%nat) i l = firstn k l ++ skipn (S k) l.
Proof.
  revert i k; induction l as [|y l IH]; intros i k; simpl.
  - now destruct k.
  - destruct k as [|k].
    + rewrite Nat.add_0_r, Nat.eqb_refl. simpl. apply filter_from_keeps. lia.
    + destruct (Nat.eqb_spec i (i + S k)); [lia|]. simpl. f_equal.
      replace (i + S k)%nat with (S i + k)%nat by lia. apply IH.
Qed.

Lemma filter_index_deletes {A} (k : nat) (l : list A) :
  filter_index (fun _ j => negb (j =? k)%nat) l = firstn k l ++ skipn (S k) l.
Proof. unfold filter_index. apply (filter_from_deletes k l 0). Qed.

Lemma filter_app_nil {A} (p : A -> bool) (l l' : list A) :
  filter p l' = [] -> filter p (l ++ l') = filter p l.
Proof. intros H. now rewrite filter_app, H, app_nil_r. Qed.

(* ================================================================== *)
(** * The upload form *)
(* ================================================================== *)

Section UploadFacts.
Import UploadPage.

Variable BACKEND_URL : JsValue.
Variable server : string -> Body -> Reply JsValue.

Local Arguments String.append : simpl never.

(** Unfolds the monadic plumbing of a handler run. *)
Ltac run_handler :=
  unfold run, handleSubmit, axios_post, onDrop, removeFile, when, of_get,
    try_catch, bind, ret, throw, emit, read, update,
    setFiles, setUploading, setProgress, setStartupName, setContactEmail;
  simpl.

Lemma onDrop_run (acceptedFiles : list File) (w : World State) :
  run (onDrop acceptedFiles) w =
  let validFiles := filter isValidFile acceptedFiles in
  mkWorld
    (mkState (startupName (state w)) (contactEmail (state w))
             (files (state w) ++ validFiles)
             (uploading (state w)) (progress (state w)))
    (trace w
     ++ (if (List.length validFiles =? List.length acceptedFiles)%nat
         then [] else [rejection_toast])
     ++ [ToastSuccess (JStr (natToString (List.length validFiles)
                             ++ " file(s) added"))]).
Proof.
  run_handler.
  destruct (List.length (filter isValidFile acceptedFiles)
            =? List.length acceptedFiles)%nat; simpl.
  - reflexivity.
  - now rewrite <- app_assoc.
Qed.

Lemma removeFile_run (index : nat) (w : World State) :
  run (removeFile index) w =
  mkWorld
    (mkState (startupName (state w)) (contactEmail (state w))
             (firstn index (files (state w)) ++ skipn (S index) (files (state w)))
             (uploading (state w)) (progress (state w)))
    (trace w ++ [ToastInfo (JStr "File removed")]).
Proof. run_handler. now rewrite filter_index_deletes. Qed.

Lemma onDrop_all_valid (acceptedFiles : list File) (w : World State) :
  all_valid w -> all_valid (run (onDrop acceptedFiles) w).
Proof.
  unfold all_valid. rewrite onDrop_run. simpl. intros H.
  apply Forall_app. split; [exact H|].
  apply Forall_forall. intros f Hf. now apply filter_In in Hf.
Qed.

Lemma removeFile_all_valid (index : nat) (w : World State) :
  all_valid w -> all_valid (run (removeFile index) w).
Proof.
  unfold all_valid. rewrite removeFile_run. simpl. intros H.
  apply Forall_app. split.
  - rewrite <- (firstn_skipn index) in H. now apply Forall_app in H.
  - rewrite <- (firstn_skipn (S index)) in H. now apply Forall_app in H.
Qed.

(** The progress callbacks of an upload touch the progress bar only. *)
Lemma for_each_progress (evs : list ProgressEvent) (w : World State) :
  exists p,
    for_each (fun ev => setProgress (percentCompleted ev)) evs w =
    (mkWorld (mkState (startupName (state w)) (contactEmail (state w))
                      (files (state w)) (uploading (state w)) p)
             (trace w), inr tt).
Proof.
  revert w; induction evs as [|ev evs IH]; intros w; simpl.
  - exists (progress (state w)). now destruct w as [[] ?].
  - unfold bind, setProgress, update at 1. simpl.
    destruct (IH (mkWorld
                    (mkState (startupName (state w)) (contactEmail (state w))
                             (files (state w)) (uploading (state w))
                             (percentCompleted ev)) (trace w))) as [p Hp].
    exists p. exact Hp.
Qed.

Lemma submittable_guards (st : State) :
  submittable st ->
  negb (truthy (JStr (trim (startupName st)))) = false
  /\ (List.length (files st) =? 0)%nat = false.
Proof.
  intros [Hn Hf]. split.
  - rewrite truthy_JStr, negb_involutive. now apply String.eqb_neq.
  - destruct (files st); [congruence | reflexivity].
Qed.

(** The run of [handleSubmit] on a ready form, case by case. *)
Lemma handleSubmit_run (w : World State) :
  submittable (state w) ->
  let st := state w in
  let create := AxiosPost (createUrl BACKEND_URL) (createBody st) [] in
  run (handleSubmit BACKEND_URL server) w =
  match ending BACKEND_URL server st with
  | CreateRejected error | CreateUnreadable error =>
      mkWorld (reset st)
              (trace w ++ [PreventDefault; create] ++ failure_events error)
  | UploadRejected assessmentId error =>
      mkWorld (reset st)
              (trace w ++ [PreventDefault; create; uploadRequest BACKEND_URL st assessmentId]
                       ++ failure_events error)
  | Uploaded assessmentId =>
      mkWorld (mkState (startupName st) (contactEmail st) (files st) true (PNum 100))
              (trace w ++ [PreventDefault; create; uploadRequest BACKEND_URL st assessmentId;
                           ToastSuccess (JStr "Documents analyzed successfully!");
                           SetTimeout (Navigate (resultsPath assessmentId)) 500])
  end.
Proof.
  intros Hs. destruct (submittable_guards _ Hs) as [Hn Hf].
  destruct w as [st tr]. simpl in *.
  unfold ending, createUrl, createBody, uploadRequest, uploadUrl, uploadBody,
    resultsPath, failure_events, detail_of, reset.
  rewrite <- or_else_JStr_JNull.
  unfold run, handleSubmit, try_catch, bind at 1 2. simpl.
  unfold bind at 1. simpl. rewrite Hn, Hf.
  unfold axios_post at 1. unfold bind, emit, update, setProgress, setUploading, ret, throw. simpl.
  destruct (server _ _) as [evs1 [data|err]]; simpl;
    [| now rewrite <- !app_assoc].
  destruct (get data "id") as [e|assessmentId]; simpl;
    [now rewrite <- !app_assoc |].
  unfold ToString.
  destruct (toString_throws assessmentId); simpl;
    [now rewrite <- !app_assoc |].
  unfold axios_post, bind, emit. simpl.
  destruct (server _ _) as [evs2 [data2|err2]]; simpl;
    match goal with
    | |- context [for_each ?f evs2 ?w0] =>
        destruct (for_each_progress evs2 w0) as [p Hp];
        unfold setProgress in Hp; rewrite Hp
    end; simpl; now rewrite <- !app_assoc.
Qed.

Lemma submittable_dec (st : State) : {submittable st} + {~ submittable st}.
Proof.
  unfold submittable.
  destruct (string_dec (trim (startupName st)) "") as [Hn|Hn];
    [right; tauto|].
  destruct (files st) as [|f fs]; [right; tauto | left; split; congruence].
Defined.

Lemma not_submittable (st : State) :
  ~ submittable st <-> trim (startupName st) = "" \/ files st = [].
Proof.
  unfold submittable. split.
  - intros H. destruct (string_dec (trim (startupName st)) ""); [tauto|].
    destruct (files st); [tauto|]. exfalso. apply H. split; congruence.
  - tauto.
Qed.

(** The run of [handleSubmit] on a form that is not ready. *)
Lemma handleSubmit_blank_run (w : World State) :
  ~ submittable (state w) ->
  run (handleSubmit BACKEND_URL server) w =
  mkWorld (state w)
          (trace w ++
           [PreventDefault;
            ToastError
              (JStr (if String.eqb (trim (startupName (state w))) ""
                     then "Please enter your startup name"
                     else "Please upload at least one document"))]).
Proof.
  intros H. apply not_submittable in H.
  destruct w as [st tr]. simpl in *.
  unfold run, handleSubmit, bind at 1 2. simpl.
  rewrite ?truthy_JStr, ?negb_involutive.
  destruct (String.eqb_spec (trim (startupName st)) "") as [Hn|Hn]; simpl.
  - unfold emit. simpl. now rewrite <- app_assoc.
  - destruct H as [H|H]; [congruence|]. rewrite H. simpl.
    unfold emit. simpl. now rewrite <- app_assoc.
Qed.

(** [handleSubmit] never writes the three inputs of the form. *)
Lemma handleSubmit_keeps_inputs (w : World State) :
  let w' := run (handleSubmit BACKEND_URL server) w in
  startupName (state w') = startupName (state w)
  /\ contactEmail (state w') = contactEmail (state w)
  /\ files (state w') = files (state w).
Proof.
  destruct (submittable_dec (state w)) as [Hs|Hs]; cbv zeta.
  - rewrite (handleSubmit_run w Hs). cbv zeta.
    destruct (ending BACKEND_URL server (state w)); simpl; auto.
  - rewrite (handleSubmit_blank_run w Hs). simpl; auto.
Qed.

Lemma handle_all_valid (a : Action) (w : World State) :
  all_valid w -> all_valid (run (handle BACKEND_URL server a) w).
Proof.
  destruct a as [v|v|fs|i|]; simpl.
  - now unfold all_valid, run, setStartupName, update.
  - now unfold all_valid, run, setContactEmail, update.
  - apply onDrop_all_valid.
  - apply removeFile_all_valid.
  - unfold all_valid.
    destruct (handleSubmit_keeps_inputs w) as (_ & _ & Hf).
    now rewrite Hf.
Qed.

(** C2. For every list of files dropped onto the form, the pending list
    grows by exactly the dropped files whose lower-cased name ends with
    ".pdf" or ".docx", in the order they were dropped; nothing else of the
    form changes; and the error toast "Only PDF and DOCX files are accepted"
    is shown exactly when some dropped file has another extension. *)
Theorem onDrop_appends_valid_files (acceptedFiles : list File) (w : World State) :
  let w' := run (onDrop acceptedFiles) w in
  let validFiles := filter isValidFile acceptedFiles in
  files (state w') = files (state w) ++ validFiles
  /\ (forall file,
        In file validFiles <->
        In file acceptedFiles
        /\ (endsWith (toLowerCase (name file)) ".pdf" = true
            \/ endsWith (toLowerCase (name file)) ".docx" = true))
  /\ (Forall (fun file => isValidFile file = true) acceptedFiles ->
      validFiles = acceptedFiles)
  /\ (startupName (state w'), contactEmail (state w'),
      uploading (state w'), progress (state w'))
     = (startupName (state w), contactEmail (state w),
        uploading (state w), progress (state w))
  /\ exists events,
       trace w' = trace w ++ events
       /\ (In rejection_toast events <->
           exists file, In file acceptedFiles /\ isValidFile file = false).
Proof.
  cbv zeta. rewrite onDrop_run. cbv zeta. simpl.
  split; [reflexivity|]. split; [|split; [|split; [reflexivity|]]].
  - intros file. rewrite filter_In. unfold isValidFile.
    now rewrite orb_true_iff.
  - intros Hall. apply forallb_filter_id. now apply forallb_forall, Forall_forall.
  - eexists. split; [reflexivity|].
    rewrite <- not_all_exists, <- filter_length_all.
    destruct (Nat.eqb_spec (List.length (filter isValidFile acceptedFiles))
                           (List.length acceptedFiles)) as [He|He]; simpl.
    + split; [|tauto]. unfold rejection_toast.
      intros [H|[]]; discriminate.
    + split; [tauto | auto].
Qed.

(** C9. Every name in the pending-file list passes the extension filter:
    this holds of the empty initial list, is preserved by [onDrop] and by
    [removeFile] (which deletes the element at the given position and adds
    nothing), and so holds in every state the page can reach. *)
Theorem pending_files_invariant :
  all_valid (mkWorld initial [])
  /\ (forall w acceptedFiles,
        all_valid w -> all_valid (run (onDrop acceptedFiles) w))
  /\ (forall w index,
        all_valid w ->
        all_valid (run (removeFile index) w)
        /\ files (state (run (removeFile index) w))
           = firstn index (files (state w)) ++ skipn (S index) (files (state w)))
  /\ (forall w, reachable BACKEND_URL server w -> all_valid w).
Proof.
  split; [constructor|]. split; [|split].
  - intros w fs. apply onDrop_all_valid.
  - intros w i H. split; [now apply removeFile_all_valid|].
    now rewrite removeFile_run.
  - intros w Hr. induction Hr as [|w a _ IH].
    + constructor.
    + now apply handle_all_valid.
Qed.

(** C3. When the startup name is empty after trimming or no file is
    pending, submitting performs no request: the handler only prevents the
    default action and shows one error toast, the state of the form is
    untouched, and the outcome does not depend on the server at all. *)
Theorem blank_submission_sends_nothing (w : World State) :
  trim (startupName (state w)) = "" \/ files (state w) = [] ->
  let w' := run (handleSubmit BACKEND_URL server) w in
  state w' = state w
  /\ (exists message,
        trace w' = trace w ++ [PreventDefault; ToastError (JStr message)])
  /\ filter is_request (trace w') = filter is_request (trace w)
  /\ filter is_navigation (trace w') = filter is_navigation (trace w)
  /\ forall url server', run (handleSubmit url server') w = w'.
Proof.
  intros H. apply not_submittable in H. cbv zeta.
  rewrite (handleSubmit_blank_run w H). simpl.
  split; [reflexivity|]. split; [eexists; reflexivity|].
  split; [now apply filter_app_nil|]. split; [now apply filter_app_nil|].
  intros url server'.
  destruct w as [st tr]. simpl in *. apply not_submittable in H.
  unfold run, handleSubmit, bind at 1 2. simpl.
  rewrite ?truthy_JStr, ?negb_involutive.
  destruct (String.eqb_spec (trim (startupName st)) "") as [Hn|Hn]; simpl.
  - unfold emit. simpl. now rewrite <- app_assoc.
  - destruct H as [H|H]; [congruence|]. rewrite H. simpl.
    unfold emit. simpl. now rewrite <- app_assoc.
Qed.

Example handleSubmit_sample_run :
  run (handleSubmit Sample.backend Sample.server_ok) Sample.form =
  mkWorld
    (mkState "Al-Ameen Digital" "" Sample.documents true (PNum 100))
    [PreventDefault;
     AxiosPost "https://api.finregx.example/api/assessments"
       (JsonBody (JObj [("startup_name", JStr "Al-Ameen Digital");
                        ("contact_email", JNull)])) [];
     AxiosPost "https://api.finregx.example/api/assessments/a1/upload"
       (FormData [("files", mkFile "Business-Plan.PDF" 20480);
                  ("files", mkFile "aml-policy.docx" 10240)])
       [("Content-Type", "multipart/form-data")];
     ToastSuccess (JStr "Documents analyzed successfully!");
     SetTimeout (Navigate "/results/a1") 500].
Proof. reflexivity. Qed.

Example handleSubmit_sample_failure :
  run (handleSubmit Sample.backend (Sample.server_upload_fails "Too large"))
      Sample.form =
  mkWorld
    (mkState "Al-Ameen Digital" "" Sample.documents false (PNum 0))
    [PreventDefault;
     AxiosPost "https://api.finregx.example/api/assessments"
       (JsonBody (JObj [("startup_name", JStr "Al-Ameen Digital");
                        ("contact_email", JNull)])) [];
     AxiosPost "https://api.finregx.example/api/assessments/a1/upload"
       (FormData [("files", mkFile "Business-Plan.PDF" 20480);
                  ("files", mkFile "aml-policy.docx" 10240)])
       [("Content-Type", "multipart/form-data")];
     ConsoleError "Upload error:" (JObj (Sample.error_with_detail "Too large"));
     ToastError (JStr "Too large")].
Proof. reflexivity. Qed.

Example onDrop_sample_run :
  run (onDrop [mkFile "notes.txt" 12; mkFile "Deck.Pdf" 900; mkFile ".docx" 1])
      Sample.form =
  mkWorld
    (mkState "Al-Ameen Digital" ""
             (Sample.documents ++ [mkFile "Deck.Pdf" 900; mkFile ".docx" 1])
             false (PNum 0))
    [rejection_toast; ToastSuccess (JStr "2 file(s) added")].
Proof. reflexivity. Qed.

Example percentCompleted_samples :
  (percentCompleted (mkProgress 0 (Some 80%N)),
   percentCompleted (mkProgress 1 (Some 80%N)),
   percentCompleted (mkProgress 80 (Some 80%N)),
   percentCompleted (mkProgress 5 None),
   percentCompleted (mkProgress 5 (Some 0%N)))
  = (PNum 50, PNum 51, PNum 90, PNaN, PInfinity).
Proof. reflexivity. Qed.

(** A rejected call ends the submission in the [catch] block. *)
Lemma fails_with_ending (st : State) (error : JsValue) :
  fails_with BACKEND_URL server st error ->
  ending BACKEND_URL server st = CreateRejected error
  \/ exists assessmentId,
       ending BACKEND_URL server st = UploadRejected assessmentId error.
Proof.
  unfold ending, ToString.
  intros [props Hc ->|data assessmentId props Hc Hid Hp Hu ->].
  - left. now rewrite Hc.
  - right. exists assessmentId. now rewrite Hc, Hid, Hp, Hu.
Qed.

Lemma failure_events_quiet (error : JsValue) :
  filter is_request (failure_events error) = []
  /\ filter is_navigation (failure_events error) = [].
Proof. now unfold failure_events. Qed.

(** C1. A submission of a form with a non-blank name and at least one
    pending file first POSTs [{API}/assessments] with the entered name and
    the email or null. When that call resolves with a body whose [id] is
    readable and is turned into text by the template literal (a string id
    is its own text), the next and last request POSTs the pending files to
    [{API}/assessments/{id}/upload] with that text; the navigation to
    [/results/{id}], with the same text, is scheduled after it when the
    upload resolves, and in no other case. When the creation is rejected,
    or its [id] cannot be read or cannot be turned into text, no further
    request is sent and no navigation is scheduled. *)
Theorem submit_creates_then_uploads (w : World State) :
  submittable (state w) ->
  let st := state w in
  exists rest,
    trace (run (handleSubmit BACKEND_URL server) w)
    = trace w ++ PreventDefault
              :: AxiosPost (createUrl BACKEND_URL) (createBody st) [] :: rest
    /\ match outcome (server (createUrl BACKEND_URL) (createBody st)) with
       | Rejected _ =>
           filter is_request rest = [] /\ filter is_navigation rest = []
       | Resolved data =>
           match get data "id" with
           | inl _ =>
               filter is_request rest = [] /\ filter is_navigation rest = []
           | inr assessmentId =>
               match ToString assessmentId with
               | inl _ =>
                   filter is_request rest = []
                   /\ filter is_navigation rest = []
               | inr idText =>
                   let url :=
                     (API BACKEND_URL ++ "/assessments/" ++ idText ++ "/upload")%string in
                   (forall s, assessmentId = JStr s -> idText = s)
                   /\ exists rest',
                        rest = AxiosPost url (uploadBody st)
                                 [("Content-Type", "multipart/form-data")]
                               :: rest'
                        /\ filter is_request rest' = []
                        /\ filter is_navigation rest'
                           = match outcome (server url (uploadBody st)) with
                             | Resolved _ =>
                                 [SetTimeout
                                    (Navigate ("/results/" ++ idText)) 500]
                             | Rejected _ => []
                             end
               end
           end
       end.
Proof.
  intros Hs. cbv zeta. rewrite (handleSubmit_run w Hs). cbv zeta.
  unfold ending.
  destruct (outcome (server (createUrl BACKEND_URL) (createBody (state w))))
    as [data|props].
  - destruct (get data "id") as [e|assessmentId].
    + eexists. split; [reflexivity|]. apply failure_events_quiet.
    + unfold ToString.
      destruct (toString_throws assessmentId) eqn:Hthrows.
      * eexists. split; [reflexivity|]. apply failure_events_quiet.
      * change (API BACKEND_URL ++ "/assessments/" ++ toStr assessmentId
                ++ "/upload")%string
          with (uploadUrl BACKEND_URL assessmentId).
        destruct (outcome (server (uploadUrl BACKEND_URL assessmentId)
                                  (uploadBody (state w)))) as [data'|props].
        -- eexists. split; [reflexivity|].
           split; [now intros s ->|].
           eexists. split; [reflexivity|]. split; reflexivity.
        -- eexists. split; [reflexivity|].
           split; [now intros s ->|].
           eexists. split; [reflexivity|]. apply failure_events_quiet.
  - eexists. split; [reflexivity|]. apply failure_events_quiet.
Qed.

(** C10. When the creation call or the upload call is rejected, the form
    ends with [uploading] false and [progress] 0, no navigation has been
    scheduled, and the startup name, the contact email and the pending
    files are what they were. *)
Theorem failed_submission_resets_form (w : World State) (error : JsValue) :
  submittable (state w) ->
  fails_with BACKEND_URL server (state w) error ->
  let w' := run (handleSubmit BACKEND_URL server) w in
  uploading (state w') = false
  /\ progress (state w') = PNum 0
  /\ filter is_navigation (trace w') = filter is_navigation (trace w)
  /\ startupName (state w') = startupName (state w)
  /\ contactEmail (state w') = contactEmail (state w)
  /\ files (state w') = files (state w).
Proof.
  intros Hs Hf. cbv zeta. rewrite (handleSubmit_run w Hs). cbv zeta.
  destruct (fails_with_ending _ _ Hf) as [He|[assessmentId He]]; rewrite He;
    simpl; repeat split; rewrite filter_app; simpl; now rewrite app_nil_r.
Qed.

(** On a rejected call with a non-empty [detail] string in the error
    response, the one error toast of the submission is that string. *)
Lemma submit_failure_toast (w : World State) (error : JsValue) (detail : string) :
  submittable (state w) ->
  fails_with BACKEND_URL server (state w) error ->
  detail_of error = JStr detail ->
  detail <> "" ->
  exists events,
    trace (run (handleSubmit BACKEND_URL server) w) = trace w ++ events
    /\ filter is_error_toast events = [ToastError (JStr detail)].
Proof.
  intros Hs Hf Hd Hne. rewrite (handleSubmit_run w Hs). cbv zeta.
  assert (Ht : or_else (detail_of error) (JStr "Failed to process documents")
               = JStr detail).
  { rewrite Hd. unfold or_else. rewrite truthy_JStr.
    apply String.eqb_neq in Hne. now rewrite Hne. }
  destruct (fails_with_ending _ _ Hf) as [He|[assessmentId He]]; rewrite He;
    eexists; (split; [reflexivity|]); simpl; now rewrite Ht.
Qed.

(** With an empty [detail] string the fallback message is shown. *)
Lemma submit_failure_empty_detail (w : World State) (error : JsValue) :
  submittable (state w) ->
  fails_with BACKEND_URL server (state w) error ->
  detail_of error = JStr "" ->
  exists events,
    trace (run (handleSubmit BACKEND_URL server) w) = trace w ++ events
    /\ filter is_error_toast events
       = [ToastError (JStr "Failed to process documents")].
Proof.
  intros Hs Hf Hd. rewrite (handleSubmit_run w Hs). cbv zeta.
  assert (Ht : or_else (detail_of error) (JStr "Failed to process documents")
               = JStr "Failed to process documents") by now rewrite Hd.
  destruct (fails_with_ending _ _ Hf) as [He|[assessmentId He]]; rewrite He;
    eexists; (split; [reflexivity|]); simpl; now rewrite Ht.
Qed.

End UploadFacts.

(* ================================================================== *)
(** * The results viewer *)
(* ================================================================== *)

Section ResultsFacts.
Import ResultsPage.

Variable BACKEND_URL : JsValue.
Variable assessmentId : string.
Variable server : string -> Outcome (option Assessment).

Local Arguments String.append : simpl never.

(** The run of [fetchResults], by the reply to the GET. *)
Lemma fetchResults_run (w : World State) :
  let url := assessmentUrl BACKEND_URL assessmentId in
  run (fetchResults BACKEND_URL assessmentId server) w =
  match server url with
  | Resolved data => mkWorld (mkState false data) (trace w ++ [AxiosGet url])
  | Rejected props =>
      mkWorld (mkState false (result (state w)))
              (trace w ++
               [AxiosGet url;
                ConsoleError "Error fetching results:" (JObj props);
                ToastError (JStr "Failed to load assessment results")])
  end.
Proof.
  cbv zeta. unfold assessmentUrl, run, fetchResults, try_finally, try_catch, axios_get.
  unfold bind, emit, setResult, setLoading, update, throw, ret. simpl.
  destruct (server _) as [data|props]; simpl.
  - reflexivity.
  - now rewrite <- !app_assoc.
Qed.

(** A rejected read shows the fixed message, whatever the error holds. *)
Lemma fetch_failure_toast (w : World State) (props : list (string * JsValue)) :
  server (assessmentUrl BACKEND_URL assessmentId) = Rejected props ->
  exists events,
    trace (run (fetchResults BACKEND_URL assessmentId server) w)
    = trace w ++ events
    /\ filter is_error_toast events
       = [ToastError (JStr "Failed to load assessment results")].
Proof.
  intros H. rewrite fetchResults_run. cbv zeta. rewrite H.
  eexists. split; reflexivity.
Qed.



Lemma getScoreColor_bottom (v : Q) :
  getScoreColor v = "text-red-600" <-> (v < 50)%Q.
Proof.
  unfold getScoreColor.
  destruct (Qle_bool 75 v) eqn:H75.
  - apply Qle_bool_iff in H75. split; [discriminate|].
    intros Hlt. exfalso. apply (Qlt_not_le _ _ Hlt).
    apply Qle_trans with 75%Q; [discriminate | exact H75].
  - destruct (Qle_bool 50 v) eqn:H50.
    + apply Qle_bool_iff in H50. split; [discriminate|].
      intros Hlt. exfalso. now apply (Qlt_not_le _ _ Hlt).
    + split; [|reflexivity]. intros _.
      apply Qnot_le_lt. intros Hle. apply Qle_bool_iff in Hle. congruence.
Qed.





Lemma renderSection_none {A B} (items : option (list A)) (card : A -> nat -> B) :
  items = None \/ items = Some [] -> renderSection items card = None.
Proof. intros [-> | ->]; reflexivity. Qed.

Lemma map_from_length {A B} (f : A -> nat -> B) (i : nat) (l : list A) :
  List.length (map_from f i l) = List.length l.
Proof.
  revert i; induction l as [|x l IH]; intros i; simpl; [reflexivity|].
  now rewrite IH.
Qed.

(** A non-empty gap list is rendered as one card per gap. *)
Lemma gaps_render_as_cards (gaps : list Gap.t) :
  gaps <> [] ->
  exists cards,
    renderGapsTab gaps = GapCards cards
    /\ List.length cards = List.length gaps
    /\ map gap_shown cards = gaps.
Proof.
  intros Hne. unfold renderGapsTab.
  destruct gaps as [|g gaps]; [congruence|]. cbn [List.length Nat.eqb].
  eexists. split; [reflexivity|]. unfold map_index. split.
  - now rewrite map_from_length.
  - generalize 0%nat. generalize (g :: gaps). clear.
    intros l; induction l as [|x l IH]; intros i; simpl; [reflexivity|].
    now rewrite IH.
Qed.

(** C6. After a read that returns an assessment the page shows the report
    and no error toast. When the gap list is empty the gaps tab holds the
    "No compliance gaps detected!" message; when the experts (or programs)
    list is absent or empty the recommendations tab has no experts (or
    programs) section. *)
Theorem empty_lists_render_as_success (w : World State) (r : Assessment) :
  server (assessmentUrl BACKEND_URL assessmentId)
  = Resolved (Some r) ->
  let w' := run (fetchResults BACKEND_URL assessmentId server) w in
  exists report,
    render (state w') = ReportView report
    /\ filter is_error_toast (trace w') = filter is_error_toast (trace w)
    /\ (gaps r = [] ->
        gapsTab report
        = NoGaps "No compliance gaps detected!"
                 "Your startup meets all regulatory requirements")
    /\ (experts (recommendations r) = None
        \/ experts (recommendations r) = Some [] ->
        expertsSection (recommendationsTab report) = None)
    /\ (programs (recommendations r) = None
        \/ programs (recommendations r) = Some [] ->
        programsSection (recommendationsTab report) = None).
Proof.
  intros H. cbv zeta. rewrite fetchResults_run. cbv zeta. rewrite H.
  unfold render. simpl. eexists. split; [reflexivity|]. simpl.
  split; [now apply filter_app_nil|].
  split; [intros Hg; unfold renderGapsTab; now rewrite Hg|].
  split; intros Hl; unfold renderRecommendationsTab; simpl;
    now apply renderSection_none.
Qed.

End ResultsFacts.

(* ================================================================== *)
(** * Error messages of the two pages *)
(* ================================================================== *)

(** On a rejected call whose error carries an empty detail string, or no
    detail at all, the one error toast of the submission is the fallback
    message. *)
Lemma submit_failure_no_detail BACKEND_URL server
    (w : World UploadPage.State) (error : JsValue) :
  UploadPage.submittable (state w) ->
  UploadPage.fails_with BACKEND_URL server (state w) error ->
  UploadPage.detail_of error = JStr ""
  \/ UploadPage.detail_of error = JUndefined
  \/ UploadPage.detail_of error = JNull ->
  exists events,
    trace (run (UploadPage.handleSubmit BACKEND_URL server) w) = trace w ++ events
    /\ filter is_error_toast events
       = [ToastError (JStr "Failed to process documents")].
Proof.
  intros Hs Hf Hd.
  rewrite (handleSubmit_run BACKEND_URL server w Hs). cbv zeta.
  assert (Ht : or_else (UploadPage.detail_of error)
                       (JStr "Failed to process documents")
               = JStr "Failed to process documents")
    by (destruct Hd as [-> | [-> | ->]]; reflexivity).
  destruct (fails_with_ending _ _ _ _ Hf) as [He|[assessmentId He]]; rewrite He;
    eexists; (split; [reflexivity|]); simpl; now rewrite Ht.
Qed.

(** C4, as the pages have it. A rejected creation or upload call whose
    error response carries a non-empty [detail] string shows exactly that
    string as the error toast of the submission; when the detail is the
    empty string or is absent (no response, no data, no detail, or null),
    the error toast is the fallback "Failed to process documents". A
    rejected read of an assessment shows the fixed message "Failed to load
    assessment results", whatever the error response carries. *)
Theorem error_detail_surfaced_on_submit_only :
  (forall BACKEND_URL server (w : World UploadPage.State) error detail,
      UploadPage.submittable (state w) ->
      UploadPage.fails_with BACKEND_URL server (state w) error ->
      UploadPage.detail_of error = JStr detail ->
      detail <> "" ->
      exists events,
        trace (run (UploadPage.handleSubmit BACKEND_URL server) w)
        = trace w ++ events
        /\ filter is_error_toast events = [ToastError (JStr detail)])
  /\ (forall BACKEND_URL server (w : World UploadPage.State) error,
        UploadPage.submittable (state w) ->
        UploadPage.fails_with BACKEND_URL server (state w) error ->
        UploadPage.detail_of error = JStr ""
        \/ UploadPage.detail_of error = JUndefined
        \/ UploadPage.detail_of error = JNull ->
        exists events,
          trace (run (UploadPage.handleSubmit BACKEND_URL server) w)
          = trace w ++ events
          /\ filter is_error_toast events
             = [ToastError (JStr "Failed to process documents")])
  /\ (forall BACKEND_URL assessmentId server (w : World ResultsPage.State) props,
        server (ResultsPage.assessmentUrl BACKEND_URL assessmentId)
        = Rejected props ->
        exists events,
          trace (run (ResultsPage.fetchResults BACKEND_URL assessmentId server) w)
          = trace w ++ events
          /\ filter is_error_toast events
             = [ToastError (JStr "Failed to load assessment results")]).
Proof.
  split; [|split].
  - intros B server w error detail Hs Hf Hd Hne.
    now apply submit_failure_toast with error.
  - intros B server w error Hs Hf Hd.
    now apply submit_failure_no_detail with error.
  - intros B aid server w props H.
    now apply fetch_failure_toast with props.
Qed.

(* ================================================================== *)
(** * The pipeline *)
(* ================================================================== *)

Section PipelineFacts.
Import Pipeline.

Variable evaluate : string -> Article -> Coverage * option string.
Variable severity_policy : Article -> Coverage -> Severity.
Variable gap_texts : Article -> Coverage -> string * string.
Variable rubric : Rubric.

(** Every gap has exactly one of the three severities. *)
Lemma count_severity_total (gaps : list Gap) :
  List.length gaps
  = (count_severity HIGH gaps + count_severity MEDIUM gaps
     + count_severity LOW gaps)%nat.
Proof.
  unfold count_severity.
  induction gaps as [|g gaps IH]; simpl; [reflexivity|].
  destruct (severity g); simpl; lia.
Qed.

(** C8. For every catalog and verdict set, the score record's total gap
    count is the sum of its high, medium and low severity counts, and the
    gaps summary card of the results page shows numbers that add up. *)
Theorem gap_counts_sum_to_total (catalog : list Article) (verdicts : list Verdict) :
  let s := scorer severity_policy gap_texts rubric catalog verdicts in
  total_gaps s
  = (high_severity_gaps s + medium_severity_gaps s + low_severity_gaps s)%nat
  /\ total_gaps s
     = List.length (gapDetector severity_policy gap_texts catalog verdicts)
  /\ let card := ResultsPage.renderGapsSummary (to_page s) in
     ResultsPage.shown_total card
     = (ResultsPage.shown_high card + ResultsPage.shown_medium card
        + ResultsPage.shown_low card)%Z.
Proof.
  cbv zeta. unfold scorer, to_page, ResultsPage.renderGapsSummary. simpl.
  pose proof (count_severity_total
                (gapDetector severity_policy gap_texts catalog verdicts)) as H.
  repeat split; [exact H | lia].
Qed.

End PipelineFacts.

(* ================================================================== *)
(** * The statements at the sample data *)
(* ================================================================== *)

(** The sample form has a name and two pending files. *)
Lemma sample_form_submittable : UploadPage.submittable (state Sample.form).
Proof. split; intros H; vm_compute in H; discriminate. Defined.

(** Against the failing server the upload call of the sample form is
    rejected. *)
Lemma sample_upload_fails (detail : string) :
  UploadPage.fails_with Sample.backend (Sample.server_upload_fails detail)
    (state Sample.form) (JObj (Sample.error_with_detail detail)).
Proof.
  apply UploadPage.upload_fails
    with (data := Sample.created) (assessmentId := JStr "a1")
         (props := Sample.error_with_detail detail); reflexivity.
Defined.

(** C1 at the sample form and the server whose two calls resolve. *)
Lemma submit_creates_then_uploads_at_sample :
  UploadPage.submittable (state Sample.form)
  /\ exists rest,
       trace (run (UploadPage.handleSubmit Sample.backend Sample.server_ok)
                  Sample.form)
       = PreventDefault
         :: AxiosPost "https://api.finregx.example/api/assessments"
              (JsonBody (JObj [("startup_name", JStr "Al-Ameen Digital");
                               ("contact_email", JNull)])) []
         :: rest
       /\ (forall s, JStr "a1" = JStr s -> "a1" = s)
       /\ exists rest',
            rest = AxiosPost "https://api.finregx.example/api/assessments/a1/upload"
                     (FormData [("files", mkFile "Business-Plan.PDF" 20480);
                                ("files", mkFile "aml-policy.docx" 10240)])
                     [("Content-Type", "multipart/form-data")]
                   :: rest'
            /\ filter is_request rest' = []
            /\ filter is_navigation rest'
               = [SetTimeout (Navigate "/results/a1") 500].
Proof.
  split; [exact sample_form_submittable|].
  exact (submit_creates_then_uploads Sample.backend Sample.server_ok
           Sample.form sample_form_submittable).
Defined.

(** A creation that answers with an id object holding its own [toString]
    key: the template literal throws, no upload is sent, the form is
    reset. *)
Example handleSubmit_unprintable_id :
  run (UploadPage.handleSubmit Sample.backend
         (Sample.server_creates (JObj [("id", JObj [("toString", JStr "a1")])])))
      Sample.form =
  mkWorld
    (UploadPage.reset (state Sample.form))
    [PreventDefault;
     AxiosPost "https://api.finregx.example/api/assessments"
       (JsonBody (JObj [("startup_name", JStr "Al-Ameen Digital");
                        ("contact_email", JNull)])) [];
     ConsoleError "Upload error:"
       (TypeError "Cannot convert object to primitive value");
     ToastError (JStr "Failed to process documents")].
Proof. reflexivity. Qed.

(** C3 at the sample form with a name of three spaces. *)
Lemma blank_submission_at_sample :
  (trim (UploadPage.startupName (state Sample.blank_form)) = ""
   \/ UploadPage.files (state Sample.blank_form) = [])
  /\ state (run (UploadPage.handleSubmit Sample.backend Sample.server_ok)
                Sample.blank_form)
     = state Sample.blank_form
  /\ filter is_request
       (trace (run (UploadPage.handleSubmit Sample.backend Sample.server_ok)
                   Sample.blank_form))
     = [].
Proof.
  assert (H : trim (UploadPage.startupName (state Sample.blank_form)) = ""
              \/ UploadPage.files (state Sample.blank_form) = [])
    by (left; reflexivity).
  split; [exact H|].
  destruct (blank_submission_sends_nothing Sample.backend Sample.server_ok
              Sample.blank_form H) as (Hst & _ & Hreq & _).
  split; [exact Hst | exact Hreq].
Defined.

(** C10 at the sample form and the server that rejects the upload. *)
Lemma failed_submission_at_sample :
  UploadPage.submittable (state Sample.form)
  /\ UploadPage.fails_with Sample.backend
       (Sample.server_upload_fails "No valid documents were processed")
       (state Sample.form)
       (JObj (Sample.error_with_detail "No valid documents were processed"))
  /\ UploadPage.uploading
       (state (run (UploadPage.handleSubmit Sample.backend
                      (Sample.server_upload_fails
                         "No valid documents were processed"))
                   Sample.form)) = false
  /\ UploadPage.progress
       (state (run (UploadPage.handleSubmit Sample.backend
                      (Sample.server_upload_fails
                         "No valid documents were processed"))
                   Sample.form)) = UploadPage.PNum 0.
Proof.
  split; [exact sample_form_submittable|].
  split; [exact (sample_upload_fails _)|].
  destruct (failed_submission_resets_form Sample.backend
              (Sample.server_upload_fails "No valid documents were processed")
              Sample.form _ sample_form_submittable (sample_upload_fails _))
    as (Hu & Hp & _).
  split; [exact Hu | exact Hp].
Defined.

(** C9 after a drop of three files, one of them a text file, and the
    removal of the first pending file. *)
Lemma pending_files_invariant_at_sample :
  UploadPage.reachable Sample.backend Sample.server_ok
    (run (UploadPage.handle Sample.backend Sample.server_ok (UploadPage.Remove 0))
       (run (UploadPage.handle Sample.backend Sample.server_ok
               (UploadPage.Drop [mkFile "notes.txt" 12; mkFile "Deck.Pdf" 900;
                                 mkFile "kyc.DOCX" 44]))
            (mkWorld UploadPage.initial [])))
  /\ UploadPage.files
       (state
          (run (UploadPage.handle Sample.backend Sample.server_ok (UploadPage.Remove 0))
             (run (UploadPage.handle Sample.backend Sample.server_ok
                     (UploadPage.Drop [mkFile "notes.txt" 12; mkFile "Deck.Pdf" 900;
                                       mkFile "kyc.DOCX" 44]))
                  (mkWorld UploadPage.initial []))))
     = [mkFile "kyc.DOCX" 44]
  /\ UploadPage.all_valid
       (run (UploadPage.handle Sample.backend Sample.server_ok (UploadPage.Remove 0))
          (run (UploadPage.handle Sample.backend Sample.server_ok
                  (UploadPage.Drop [mkFile "notes.txt" 12; mkFile "Deck.Pdf" 900;
                                    mkFile "kyc.DOCX" 44]))
               (mkWorld UploadPage.initial []))).
Proof.
  assert (Hr : UploadPage.reachable Sample.backend Sample.server_ok
                 (run (UploadPage.handle Sample.backend Sample.server_ok
                         (UploadPage.Remove 0))
                    (run (UploadPage.handle Sample.backend Sample.server_ok
                            (UploadPage.Drop [mkFile "notes.txt" 12;
                                              mkFile "Deck.Pdf" 900;
                                              mkFile "kyc.DOCX" 44]))
                         (mkWorld UploadPage.initial []))))
    by (do 2 apply UploadPage.reach_step; apply UploadPage.reach_init).
  split; [exact Hr|]. split; [reflexivity|].
  exact (proj2 (proj2 (proj2 (pending_files_invariant Sample.backend
                                Sample.server_ok))) _ Hr).
Defined.

(** C4 at a rejected upload with a detail, at a rejected upload with an
    empty detail, at a creation that fails without a response, and at a
    rejected read with a detail. *)
Lemma error_detail_at_sample :
  (exists events,
     trace (run (UploadPage.handleSubmit Sample.backend
                   (Sample.server_upload_fails
                      "No valid documents were processed"))
                Sample.form)
     = trace Sample.form ++ events
     /\ filter is_error_toast events
        = [ToastError (JStr "No valid documents were processed")])
  /\ (exists events,
        trace (run (UploadPage.handleSubmit Sample.backend
                      (Sample.server_upload_fails ""))
                   Sample.form)
        = trace Sample.form ++ events
        /\ filter is_error_toast events
           = [ToastError (JStr "Failed to process documents")])
  /\ (exists events,
        trace (run (UploadPage.handleSubmit Sample.backend
                      (Sample.server_rejects Sample.network_error))
                   Sample.form)
        = trace Sample.form ++ events
        /\ filter is_error_toast events
           = [ToastError (JStr "Failed to process documents")])
  /\ (exists events,
        trace (run (ResultsPage.fetchResults Sample.backend "a1"
                      (Sample.server_read_fails "Assessment not found"))
                   Sample.results)
        = trace Sample.results ++ events
        /\ filter is_error_toast events
           = [ToastError (JStr "Failed to load assessment results")]).
Proof.
  split; [|split; [|split]].
  - apply (proj1 error_detail_surfaced_on_submit_only
             Sample.backend
             (Sample.server_upload_fails "No valid documents were processed")
             Sample.form
             (JObj (Sample.error_with_detail "No valid documents were processed"))
             "No valid documents were processed").
    + exact sample_form_submittable.
    + exact (sample_upload_fails _).
    + reflexivity.
    + discriminate.
  - apply (proj1 (proj2 error_detail_surfaced_on_submit_only)
             Sample.backend (Sample.server_upload_fails "") Sample.form
             (JObj (Sample.error_with_detail ""))).
    + exact sample_form_submittable.
    + exact (sample_upload_fails _).
    + left. reflexivity.
  - apply (proj1 (proj2 error_detail_surfaced_on_submit_only)
             Sample.backend (Sample.server_rejects Sample.network_error)
             Sample.form (JObj Sample.network_error)).
    + exact sample_form_submittable.
    + apply UploadPage.create_fails with (props := Sample.network_error);
        reflexivity.
    + right. left. reflexivity.
  - apply (proj2 (proj2 error_detail_surfaced_on_submit_only)
             Sample.backend "a1"
             (Sample.server_read_fails "Assessment not found")
             Sample.results
             (Sample.error_with_detail "Assessment not found")).
    reflexivity.
Defined.

(** C4, the claim as stated fails. A read rejected with the detail
    "Assessment not found" shows the fixed message and not the detail; an
    upload rejected with an empty detail string shows the fallback
    message. *)
Lemma read_error_detail_not_surfaced :
  UploadPage.detail_of (JObj (Sample.error_with_detail "Assessment not found"))
  = JStr "Assessment not found"
  /\ filter is_error_toast
       (trace (run (ResultsPage.fetchResults Sample.backend "a1"
                      (Sample.server_read_fails "Assessment not found"))
                   Sample.results))
     = [ToastError (JStr "Failed to load assessment results")]
  /\ UploadPage.detail_of (JObj (Sample.error_with_detail "")) = JStr ""
  /\ filter is_error_toast
       (trace (run (UploadPage.handleSubmit Sample.backend
                      (Sample.server_upload_fails ""))
                   Sample.form))
     = [ToastError (JStr "Failed to process documents")].
Proof. repeat split; reflexivity. Qed.

(** C6 at an assessment with no gap, no experts list and an empty programs
    list. *)
Lemma empty_lists_render_at_sample :
  Sample.server_read_ok (ResultsPage.assessmentUrl Sample.backend "a1")
  = Resolved (Some Sample.clean_assessment)
  /\ exists report,
       ResultsPage.render
         (state (run (ResultsPage.fetchResults Sample.backend "a1"
                        Sample.server_read_ok) Sample.results))
       = ResultsPage.ReportView report
       /\ ResultsPage.gapsTab report
          = ResultsPage.NoGaps "No compliance gaps detected!"
                               "Your startup meets all regulatory requirements"
       /\ ResultsPage.expertsSection (ResultsPage.recommendationsTab report) = None
       /\ ResultsPage.programsSection (ResultsPage.recommendationsTab report) = None.
Proof.
  split; [reflexivity|].
  destruct (empty_lists_render_as_success Sample.backend "a1"
              Sample.server_read_ok Sample.results Sample.clean_assessment
              eq_refl) as (report & Hv & _ & Hg & He & Hp).
  exists report. split; [exact Hv|].
  split; [exact (Hg eq_refl)|].
  split; [exact (He (or_introl eq_refl)) | exact (Hp (or_intror eq_refl))].
Defined.

(* ================================================================== *)
(** * Further facts: file names *)
(* ================================================================== *)

Lemma substring_whole (s : string) : substring 0 (String.length s) s = s.
Proof. induction s as [|c s IH]; simpl; [reflexivity | now rewrite IH]. Qed.

Lemma substring_append_suffix (p suffix : string) :
  substring (String.length p) (String.length suffix) (p ++ suffix) = suffix.
Proof.
  induction p as [|c p IH]; simpl; [apply substring_whole | exact IH].
Qed.

Lemma string_length_append (p q : string) :
  String.length (p ++ q) = (String.length p + String.length q)%nat.
Proof. induction p as [|c p IH]; simpl; [reflexivity | now rewrite IH]. Qed.

Lemma substring_split (k : nat) (s : string) :
  (k <= String.length s)%nat ->
  s = (substring 0 k s ++ substring k (String.length s - k) s)%string.
Proof.
  revert k; induction s as [|c s IH]; intros k Hk; simpl in *.
  - destruct k; simpl; [reflexivity | lia].
  - destruct k as [|k]; simpl.
    + now rewrite substring_whole.
    + f_equal. apply IH. lia.
Qed.

(** [endsWith] holds exactly of the strings that are some prefix followed
    by the suffix. *)
Lemma endsWith_iff (s suffix : string) :
  endsWith s suffix = true <-> exists stem, s = (stem ++ suffix)%string.
Proof.
  unfold endsWith. rewrite andb_true_iff, Nat.leb_le, String.eqb_eq. split.
  - intros [Hle Hs].
    exists (substring 0 (String.length s - String.length suffix) s).
    pose proof (substring_split (String.length s - String.length suffix) s) as H.
    replace (String.length s - (String.length s - String.length suffix))%nat
      with (String.length suffix) in H by lia.
    rewrite Hs in H. apply H. lia.
  - intros [stem ->]. rewrite string_length_append. split; [lia|].
    replace (String.length stem + String.length suffix - String.length suffix)%nat
      with (String.length stem) by lia.
    apply substring_append_suffix.
Qed.

Lemma lowerChar_idempotent (c : ascii) : lowerChar (lowerChar c) = lowerChar c.
Proof. destruct c as [[] [] [] [] [] [] [] []]; reflexivity. Qed.

Lemma toLowerCase_idempotent (s : string) :
  toLowerCase (toLowerCase s) = toLowerCase s.
Proof.
  induction s as [|c s IH]; simpl; [reflexivity|].
  now rewrite lowerChar_idempotent, IH.
Qed.

(** X1. A file passes the filter of [onDrop] exactly when its lower-cased
    name is some stem, possibly empty, followed by ".pdf" or by ".docx";
    and lower-casing the name of a file never changes whether it passes. *)
Theorem isValidFile_characterised (file : File) :
  (UploadPage.isValidFile file = true <->
   exists stem,
     toLowerCase (name file) = (stem ++ ".pdf")%string
     \/ toLowerCase (name file) = (stem ++ ".docx")%string)
  /\ UploadPage.isValidFile (mkFile (toLowerCase (name file)) (size file))
     = UploadPage.isValidFile file.
Proof.
  unfold UploadPage.isValidFile. split.
  - rewrite orb_true_iff, !endsWith_iff. split.
    + intros [[stem H]|[stem H]]; exists stem; auto.
    + intros [stem [H|H]]; [left | right]; now exists stem.
  - simpl. now rewrite toLowerCase_idempotent.
Qed.

(** X2. While an upload is under way, that is for a positive total and a
    loaded count of at most the total, the progress bar shows a number
    between 50 and 90, it shows 50 before the first byte and 90 at the last,
    and it never goes back when more bytes are loaded. *)
Theorem percentCompleted_range (l l' t : N) :
  (0 < t)%N -> (l <= l')%N -> (l' <= t)%N ->
  exists n n',
    UploadPage.percentCompleted (mkProgress l (Some t)) = UploadPage.PNum n
    /\ UploadPage.percentCompleted (mkProgress l' (Some t)) = UploadPage.PNum n'
    /\ (50 <= n <= n')%Z /\ (n' <= 90)%Z
    /\ UploadPage.percentCompleted (mkProgress 0 (Some t)) = UploadPage.PNum 50
    /\ UploadPage.percentCompleted (mkProgress t (Some t)) = UploadPage.PNum 90.
Proof.
  intros Ht Hl Hl'. unfold UploadPage.percentCompleted. cbn [total loaded].
  destruct (N.eqb_spec t 0) as [->|Hne]; [lia|].
  do 2 eexists. split; [reflexivity|]. split; [reflexivity|].
  assert (Ht' : (0 < 2 * Z.of_N t)%Z) by lia.
  repeat split.
  - apply Z.div_le_lower_bound; lia.
  - apply Z.div_le_mono; lia.
  - apply Z.lt_succ_r, Z.div_lt_upper_bound; lia.
  - f_equal. symmetry. apply Z.div_unique with (r := Z.of_N t); lia.
  - f_equal. symmetry. apply Z.div_unique with (r := Z.of_N t); lia.
Qed.

(* ================================================================== *)
(** * Further facts: the pending-file list *)
(* ================================================================== *)

Lemma nth_error_delete {A} (k : nat) (l : list A) (i : nat) :
  nth_error (firstn k l ++ skipn (S k) l) i
  = nth_error l (if (i <? k)%nat then i else S i).
Proof.
  revert k i; induction l as [|x l IH]; intros k i.
  - rewrite firstn_nil, skipn_nil. simpl.
    destruct (i <? k)%nat; now destruct i.
  - destruct k as [|k]; simpl.
    + reflexivity.
    + destruct i as [|i]; simpl; [reflexivity|].
      rewrite IH. change (S i <? S k)%nat with (i <? k)%nat.
      now destruct (i <? k)%nat.
Qed.

Lemma length_delete {A} (k : nat) (l : list A) :
  (k < List.length l)%nat ->
  List.length (firstn k l ++ skipn (S k) l) = (List.length l - 1)%nat.
Proof.
  intros Hk. rewrite length_app, length_firstn, length_skipn. lia.
Qed.

(** X3. [removeFile] at a position inside the list deletes exactly the
    entry at that position: the list is one shorter, the entries before it
    keep their positions and the entries after it move up by one. At a
    position outside the list it leaves the list as it is. The "File
    removed" toast is shown in both cases. *)
Theorem removeFile_bounds (index : nat) (w : World UploadPage.State) :
  let before := UploadPage.files (state w) in
  let w' := run (UploadPage.removeFile index) w in
  let after := UploadPage.files (state w') in
  ((index < List.length before)%nat ->
   List.length after = (List.length before - 1)%nat
   /\ forall i, nth_error after i
                = nth_error before (if (i <? index)%nat then i else S i))
  /\ ((List.length before <= index)%nat -> after = before)
  /\ trace w' = trace w ++ [ToastInfo (JStr "File removed")].
Proof.
  cbv zeta. rewrite removeFile_run. cbn [state trace UploadPage.files].
  split; [|split].
  - intros Hlt. split; [now apply length_delete|].
    intros i. apply nth_error_delete.
  - intros Hge. rewrite firstn_all2 by exact Hge.
    rewrite skipn_all2 by lia. apply app_nil_r.
  - reflexivity.
Qed.

(** X4. Dropping one acceptable file and then removing the entry at the
    old length of the list gives back the list as it was. *)
Theorem drop_then_remove_restores (file : File) (w : World UploadPage.State) :
  UploadPage.isValidFile file = true ->
  UploadPage.files
    (state (run (UploadPage.removeFile (List.length (UploadPage.files (state w))))
               (run (UploadPage.onDrop [file]) w)))
  = UploadPage.files (state w).
Proof.
  intros Hv. rewrite removeFile_run, onDrop_run.
  cbn [state trace UploadPage.files filter]. rewrite Hv.
  rewrite firstn_app, Nat.sub_diag, firstn_all, firstn_O, app_nil_r.
  rewrite skipn_app, skipn_all2 by lia.
  replace (S (List.length (UploadPage.files (state w)))
           - List.length (UploadPage.files (state w)))%nat with 1%nat by lia.
  cbn [skipn app]. apply app_nil_r.
Qed.

(** X5. Two drops in a row leave the form in the state that one drop of
    both batches together leaves it in. *)
Theorem onDrop_batches_compose (first second : list File)
    (w : World UploadPage.State) :
  state (run (UploadPage.onDrop second) (run (UploadPage.onDrop first) w))
  = state (run (UploadPage.onDrop (first ++ second)) w).
Proof.
  rewrite !onDrop_run. simpl. now rewrite filter_app, app_assoc.
Qed.

(** X6. A drop in which no file is acceptable leaves the form as it was
    and still shows the success toast, with the count 0; it is preceded by
    the error toast unless the drop was empty. *)
Theorem rejected_drop_changes_nothing (acceptedFiles : list File)
    (w : World UploadPage.State) :
  (forall file, In file acceptedFiles -> UploadPage.isValidFile file = false) ->
  let w' := run (UploadPage.onDrop acceptedFiles) w in
  state w' = state w
  /\ trace w'
     = trace w
       ++ match acceptedFiles with
          | [] => []
          | _ :: _ => [UploadPage.rejection_toast]
          end
       ++ [ToastSuccess (JStr "0 file(s) added")].
Proof.
  intros Hall. cbv zeta. rewrite onDrop_run. cbv zeta.
  assert (Hnone : filter UploadPage.isValidFile acceptedFiles = []).
  { induction acceptedFiles as [|f fs IH]; simpl; [reflexivity|].
    rewrite (Hall f) by now left. apply IH. intros g Hg. apply Hall. now right. }
  rewrite Hnone. simpl. rewrite app_nil_r. split.
  - now destruct w as [[] ?].
  - now destruct acceptedFiles.
Qed.

(* ================================================================== *)
(** * Further facts: submissions *)
(* ================================================================== *)

Lemma trimStart_empty (s : string) :
  trimStart s = "" <-> forallb isWhiteSpace (list_ascii_of_string s) = true.
Proof.
  induction s as [|c s IH]; simpl; [tauto|].
  destruct (isWhiteSpace c); simpl; [exact IH|].
  split; discriminate.
Qed.

Lemma trimEnd_empty (s : string) :
  trimEnd s = "" <-> forallb isWhiteSpace (list_ascii_of_string s) = true.
Proof.
  induction s as [|c s IH]; simpl; [tauto|].
  destruct (trimEnd s) as [|d t].
  - destruct (isWhiteSpace c); simpl.
    + split; [intros _; now apply IH | reflexivity].
    + split; discriminate.
  - rewrite andb_true_iff. split; [discriminate|].
    intros [_ H]. apply IH in H. discriminate.
Qed.

Lemma trimStart_keeps_ink (s : string) :
  forallb isWhiteSpace (list_ascii_of_string (trimStart s))
  = forallb isWhiteSpace (list_ascii_of_string s).
Proof.
  induction s as [|c s IH]; simpl; [reflexivity|].
  destruct (isWhiteSpace c) eqn:Hc; simpl; [exact IH | now rewrite Hc].
Qed.

(** The trimmed name is empty exactly when every character is white
    space. *)
Lemma trim_empty (s : string) :
  trim s = "" <-> forallb isWhiteSpace (list_ascii_of_string s) = true.
Proof. unfold trim. now rewrite trimEnd_empty, trimStart_keeps_ink. Qed.

Section SubmitFacts.
Import UploadPage.

Variable BACKEND_URL : JsValue.
Variable server : string -> Body -> Reply JsValue.

Local Arguments String.append : simpl never.

(** The events of one submission, by how it ends. *)
Lemma handleSubmit_events (w : World State) :
  exists events,
    trace (run (handleSubmit BACKEND_URL server) w) = trace w ++ events
    /\ ((~ submittable (state w)
         /\ state (run (handleSubmit BACKEND_URL server) w) = state w
         /\ exists message, events = [PreventDefault; ToastError (JStr message)])
        \/ (submittable (state w)
            /\ exists request tail,
                 events = PreventDefault :: request :: tail
                 /\ is_request request = true
                 /\ match ending BACKEND_URL server (state w) with
                    | CreateRejected error | CreateUnreadable error =>
                        tail = failure_events error
                        /\ state (run (handleSubmit BACKEND_URL server) w)
                           = reset (state w)
                    | UploadRejected assessmentId error =>
                        tail = uploadRequest BACKEND_URL (state w) assessmentId
                               :: failure_events error
                        /\ state (run (handleSubmit BACKEND_URL server) w)
                           = reset (state w)
                    | Uploaded assessmentId =>
                        tail = [uploadRequest BACKEND_URL (state w) assessmentId;
                                ToastSuccess (JStr "Documents analyzed successfully!");
                                SetTimeout (Navigate (resultsPath assessmentId)) 500]
                        /\ state (run (handleSubmit BACKEND_URL server) w)
                           = mkState (startupName (state w))
                                     (contactEmail (state w))
                                     (files (state w)) true (PNum 100)
                    end)).
Proof.
  destruct (submittable_dec (state w)) as [Hs|Hs].
  - rewrite (handleSubmit_run BACKEND_URL server w Hs). cbv zeta.
    destruct (ending BACKEND_URL server (state w)) eqn:He;
      (eexists; split; [reflexivity|]; right; split; [exact Hs|];
       do 2 eexists; split; [reflexivity|]; split; [reflexivity|];
       split; reflexivity).
  - rewrite (handleSubmit_blank_run BACKEND_URL server w Hs).
    eexists. split; [reflexivity|]. left. split; [exact Hs|].
    split; [reflexivity|]. eexists. reflexivity.
Qed.

(** X7. No exception escapes [handleSubmit]: whatever the form holds and
    whatever the server answers, a rejected call and an unreadable creation
    body are caught, and the handler returns. *)
Theorem handleSubmit_never_throws (w : World State) :
  snd (handleSubmit BACKEND_URL server w) = inr tt.
Proof.
  destruct w as [st tr].
  unfold handleSubmit, try_catch, bind at 1 2. simpl.
  unfold bind at 1. simpl.
  destruct (negb (negb (trim (startupName st) =? "")%string)); [reflexivity|].
  destruct (List.length (files st) =? 0)%nat; [reflexivity|].
  unfold axios_post at 1.
  unfold bind, emit, update, setProgress, setUploading, ret, throw. simpl.
  destruct (server _ _) as [evs1 [data|err]]; simpl; [|reflexivity].
  destruct (get data "id") as [e|assessmentId]; simpl; [reflexivity|].
  unfold ToString. destruct (toString_throws assessmentId); simpl;
    [reflexivity|].
  unfold axios_post, bind, emit. simpl.
  destruct (server _ _) as [evs2 [data2|err2]]; simpl;
    match goal with
    | |- context [for_each ?f evs2 ?w0] =>
        destruct (for_each_progress evs2 w0) as [p Hp];
        unfold setProgress in Hp; rewrite Hp
    end; reflexivity.
Qed.

(** X8. One submission, whatever the form and the server, shows exactly
    one toast, sends at most two requests and schedules at most one
    navigation; when it schedules one it has sent two requests and leaves
    the form uploading at 100. *)
Theorem handleSubmit_budget (w : World State) :
  let w' := run (handleSubmit BACKEND_URL server) w in
  exists events,
    trace w' = trace w ++ events
    /\ List.length (filter is_toast events) = 1%nat
    /\ (List.length (filter is_request events) <= 2)%nat
    /\ (List.length (filter is_navigation events) <= 1)%nat
    /\ (List.length (filter is_navigation events) = 1%nat ->
        List.length (filter is_request events) = 2%nat
        /\ uploading (state w') = true
        /\ progress (state w') = PNum 100).
Proof.
  cbv zeta. destruct (handleSubmit_events w) as (events & Ht & H).
  exists events. split; [exact Ht|].
  destruct H as [(_ & _ & message & ->)|(_ & request & tail & -> & Hr & H)].
  - simpl. repeat split; lia.
  - destruct request; try discriminate; simpl;
      destruct (ending BACKEND_URL server (state w));
      destruct H as [-> Hst]; rewrite Hst; simpl;
      repeat split; try lia; try discriminate.
Qed.

(** X9. A submission sends a request exactly when the startup name has a
    character that is not white space and a file is pending. *)
Theorem handleSubmit_sends_iff_ready (w : World State) :
  exists events,
    trace (run (handleSubmit BACKEND_URL server) w) = trace w ++ events
    /\ (filter is_request events = [] <->
        forallb isWhiteSpace
                (list_ascii_of_string (startupName (state w))) = true
        \/ files (state w) = []).
Proof.
  destruct (handleSubmit_events w) as (events & Ht & H).
  exists events. split; [exact Ht|]. rewrite <- trim_empty, <- not_submittable.
  destruct H as [(Hn & _ & message & ->)|(Hs & request & tail & -> & Hr & _)].
  - simpl. tauto.
  - simpl. rewrite Hr. split; [discriminate | tauto].
Qed.

(** X10. The submit button is enabled exactly when no upload is under way
    and both guards of [handleSubmit] pass; so a submission through an
    enabled button always goes on to the creation request and never shows
    one of the two guard toasts. *)
Theorem enabled_button_passes_guards (w : World State) :
  (submitDisabled (state w) = false <->
   uploading (state w) = false /\ submittable (state w))
  /\ (submitDisabled (state w) = false ->
      exists rest,
        trace (run (handleSubmit BACKEND_URL server) w)
        = trace w ++ PreventDefault
                  :: AxiosPost (createUrl BACKEND_URL) (createBody (state w)) []
                  :: rest).
Proof.
  assert (Hiff : submitDisabled (state w) = false <->
                 uploading (state w) = false /\ submittable (state w)).
  { unfold submitDisabled, submittable.
    rewrite !orb_false_iff, truthy_JStr, negb_involutive.
    rewrite String.eqb_neq, Nat.eqb_neq.
    destruct (files (state w)); simpl; intuition (congruence || lia). }
  split; [exact Hiff|]. intros Hd. apply Hiff in Hd. destruct Hd as [_ Hs].
  rewrite (handleSubmit_run BACKEND_URL server w Hs). cbv zeta.
  destruct (ending BACKEND_URL server (state w)); eexists; reflexivity.
Qed.

End SubmitFacts.

Section SubmitEndings.
Import UploadPage.

Variable BACKEND_URL : JsValue.
Variable server : string -> Body -> Reply JsValue.

Local Arguments String.append : simpl never.

(** X11. When both calls resolve, the upload being the one for an id that
    the template literal turns into text, the form is left uploading with
    the progress at 100, whatever progress notifications came in, the
    inputs are kept, and the one toast of the submission is the success
    toast. *)
Theorem successful_submission_stays_uploading
    (w : World State) (data data' assessmentId : JsValue) :
  submittable (state w) ->
  outcome (server (createUrl BACKEND_URL) (createBody (state w)))
  = Resolved data ->
  get data "id" = inr assessmentId ->
  toString_throws assessmentId = false ->
  outcome (server (uploadUrl BACKEND_URL assessmentId) (uploadBody (state w)))
  = Resolved data' ->
  let w' := run (handleSubmit BACKEND_URL server) w in
  state w'
  = mkState (startupName (state w)) (contactEmail (state w))
            (files (state w)) true (PNum 100)
  /\ exists events,
       trace w' = trace w ++ events
       /\ filter is_toast events
          = [ToastSuccess (JStr "Documents analyzed successfully!")].
Proof.
  intros Hs Hc Hid Hp Hu. cbv zeta.
  rewrite (handleSubmit_run BACKEND_URL server w Hs). cbv zeta.
  unfold ending, ToString. rewrite Hc, Hid, Hp, Hu. simpl.
  split; [reflexivity|]. eexists. split; reflexivity.
Qed.

(** X12. When the creation resolves with a body that has no [id] (an
    object without that key, or a string, number, boolean or array), the
    submission goes on with the text "undefined" for the id: it uploads to
    [{API}/assessments/undefined/upload] and, when that call resolves,
    schedules the navigation to [/results/undefined]. *)
Theorem missing_id_uploads_to_undefined (w : World State) (data : JsValue) :
  submittable (state w) ->
  outcome (server (createUrl BACKEND_URL) (createBody (state w)))
  = Resolved data ->
  get data "id" = inr JUndefined ->
  let url := (API BACKEND_URL ++ "/assessments/undefined/upload")%string in
  exists rest,
    trace (run (handleSubmit BACKEND_URL server) w)
    = trace w
      ++ [PreventDefault;
          AxiosPost (createUrl BACKEND_URL) (createBody (state w)) [];
          AxiosPost url (uploadBody (state w))
                    [("Content-Type", "multipart/form-data")]]
      ++ rest
    /\ (forall data',
          outcome (server url (uploadBody (state w))) = Resolved data' ->
          rest = [ToastSuccess (JStr "Documents analyzed successfully!");
                  SetTimeout (Navigate "/results/undefined") 500]).
Proof.
  intros Hs Hc Hid. cbv zeta.
  rewrite (handleSubmit_run BACKEND_URL server w Hs). cbv zeta.
  unfold ending. rewrite Hc, Hid. cbn [ToString toString_throws].
  change (uploadUrl BACKEND_URL JUndefined)
    with (API BACKEND_URL ++ "/assessments/undefined/upload")%string.
  destruct (outcome (server (API BACKEND_URL ++ "/assessments/undefined/upload")%string
                            (uploadBody (state w)))) as [data'|props] eqn:Hu.
  - eexists. split; [reflexivity|]. intros d _. reflexivity.
  - eexists. split; [reflexivity|]. intros d Hd. discriminate.
Qed.

(** X13. When the creation resolves with [null] or [undefined] as its
    data, reading its [id] throws; the exception is caught: no upload is
    sent, the toast is "Failed to process documents", and the form is
    reset. *)
Theorem null_creation_body_is_caught (w : World State) (data : JsValue) :
  submittable (state w) ->
  outcome (server (createUrl BACKEND_URL) (createBody (state w)))
  = Resolved data ->
  data = JNull \/ data = JUndefined ->
  let w' := run (handleSubmit BACKEND_URL server) w in
  state w' = reset (state w)
  /\ exists events,
       trace w' = trace w ++ events
       /\ filter is_request events
          = [AxiosPost (createUrl BACKEND_URL) (createBody (state w)) []]
       /\ filter is_toast events
          = [ToastError (JStr "Failed to process documents")]
       /\ filter is_navigation events = [].
Proof.
  intros Hs Hc Hd. cbv zeta.
  rewrite (handleSubmit_run BACKEND_URL server w Hs). cbv zeta.
  unfold ending. rewrite Hc.
  destruct Hd as [-> | ->]; simpl; (split; [reflexivity|]);
    eexists; (split; [reflexivity|]); repeat split; reflexivity.
Qed.

(** X14. When a call is rejected with an error that has no [response],
    as for a connection failure, the error toast is the fallback message
    "Failed to process documents". *)
Theorem network_failure_shows_fallback
    (w : World State) (props : list (string * JsValue)) :
  submittable (state w) ->
  fails_with BACKEND_URL server (state w) (JObj props) ->
  lookup "response" props = JUndefined ->
  exists events,
    trace (run (handleSubmit BACKEND_URL server) w) = trace w ++ events
    /\ filter is_toast events
       = [ToastError (JStr "Failed to process documents")].
Proof.
  intros Hs Hf Hr.
  rewrite (handleSubmit_run BACKEND_URL server w Hs). cbv zeta.
  assert (Ht : or_else (detail_of (JObj props))
                       (JStr "Failed to process documents")
               = JStr "Failed to process documents").
  { unfold detail_of. simpl. now rewrite Hr. }
  destruct (fails_with_ending _ _ _ _ Hf) as [He|[assessmentId He]]; rewrite He;
    eexists; (split; [reflexivity|]); simpl; now rewrite Ht.
Qed.

(** X15. When a call is rejected with a [detail] that is a list or an
    object, such as a list of validation messages, the error toast is
    handed that value as it is, an empty list included; the fallback
    message is not used. *)
Theorem structured_detail_is_passed_on
    (w : World State) (error detail : JsValue) :
  submittable (state w) ->
  fails_with BACKEND_URL server (state w) error ->
  detail_of error = detail ->
  (exists items, detail = JArr items) \/ (exists props, detail = JObj props) ->
  exists events,
    trace (run (handleSubmit BACKEND_URL server) w) = trace w ++ events
    /\ filter is_toast events = [ToastError detail].
Proof.
  intros Hs Hf Hd Hshape.
  rewrite (handleSubmit_run BACKEND_URL server w Hs). cbv zeta.
  assert (Ht : or_else (detail_of error) (JStr "Failed to process documents")
               = detail).
  { rewrite Hd. destruct Hshape as [[items ->]|[props ->]]; reflexivity. }
  destruct (fails_with_ending _ _ _ _ Hf) as [He|[assessmentId He]]; rewrite He;
    eexists; (split; [reflexivity|]); simpl; now rewrite Ht.
Qed.

(** X16. [handleSubmit] does not look at [uploading] or [progress]: a
    ready form that is submitted again while an upload is under way sends
    the same requests and ends in the same state as when it is idle. *)
Theorem handleSubmit_ignores_uploading
    (enteredName enteredEmail : string) (pending : list File)
    (busy : bool) (shown : Progress) (history : list Event) :
  submittable (mkState enteredName enteredEmail pending busy shown) ->
  run (handleSubmit BACKEND_URL server)
      (mkWorld (mkState enteredName enteredEmail pending busy shown) history)
  = run (handleSubmit BACKEND_URL server)
        (mkWorld (mkState enteredName enteredEmail pending false (PNum 0))
                 history).
Proof.
  intros Hs.
  rewrite (handleSubmit_run BACKEND_URL server
             (mkWorld (mkState enteredName enteredEmail pending busy shown)
                      history) Hs).
  rewrite (handleSubmit_run BACKEND_URL server
             (mkWorld (mkState enteredName enteredEmail pending false (PNum 0))
                      history) Hs).
  reflexivity.
Qed.

Lemma handle_events (a : Action) (w : World State) :
  exists events,
    trace (run (handle BACKEND_URL server a) w) = trace w ++ events
    /\ (2 * List.length (filter is_navigation events)
        <= List.length (filter is_request events))%nat.
Proof.
  destruct a as [v|v|fs|i|]; cbn [handle].
  - exists []. split; [now rewrite app_nil_r | simpl; lia].
  - exists []. split; [now rewrite app_nil_r | simpl; lia].
  - rewrite onDrop_run. cbv zeta. eexists. split; [reflexivity|].
    rewrite !filter_app. simpl.
    destruct (_ =? _)%nat; simpl; lia.
  - rewrite removeFile_run. eexists. split; [reflexivity|]. simpl. lia.
  - destruct (handleSubmit_events BACKEND_URL server w) as (events & Ht & H).
    exists events. split; [exact Ht|].
    destruct H as [(_ & _ & message & ->)|(_ & request & tail & -> & Hr & H)].
    + simpl. lia.
    + destruct request; try discriminate; simpl;
        destruct (ending BACKEND_URL server (state w));
        destruct H as [-> _]; simpl; lia.
Qed.

(** X17. In the history of every state the page can reach, each scheduled
    navigation to a results page is paid for by two requests: twice the
    number of navigations is at most the number of requests. *)
Theorem navigations_follow_requests (w : World State) :
  reachable BACKEND_URL server w ->
  (2 * List.length (filter is_navigation (trace w))
   <= List.length (filter is_request (trace w)))%nat.
Proof.
  intros Hr. induction Hr as [|w a _ IH]; [simpl; lia|].
  destruct (handle_events a w) as (events & -> & He).
  rewrite !filter_app, !length_app. lia.
Qed.

End SubmitEndings.

(* ================================================================== *)
(** * Further facts: the results viewer *)
(* ================================================================== *)

Lemma map_from_nth {A B} (f : A -> nat -> B) (l : list A) (i k : nat) :
  nth_error (map_from f i l) k
  = option_map (fun x => f x (i + k)%nat) (nth_error l k).
Proof.
  revert i k; induction l as [|x l IH]; intros i k; simpl.
  - now destruct k.
  - destruct k as [|k]; simpl.
    + now rewrite Nat.add_0_r.
    + rewrite IH. now replace (S i + k)%nat with (i + S k)%nat by lia.
Qed.

Lemma map_index_nth {A B} (f : A -> nat -> B) (l : list A) (k : nat) :
  nth_error (map_index f l) k = option_map (fun x => f x k) (nth_error l k).
Proof. unfold map_index. now rewrite map_from_nth. Qed.

Lemma map_index_In {A B} (f : A -> nat -> B) (l : list A) (y : B) :
  In y (map_index f l) -> exists x k, nth_error l k = Some x /\ y = f x k.
Proof.
  intros Hy. apply In_nth_error in Hy. destruct Hy as [k Hk].
  rewrite map_index_nth in Hk.
  destruct (nth_error l k) as [x|] eqn:Hx; [|discriminate].
  exists x, k. split; [exact Hx|]. simpl in Hk. congruence.
Qed.

Lemma map_index_length {A B} (f : A -> nat -> B) (l : list A) :
  List.length (map_index f l) = List.length l.
Proof. apply map_from_length. Qed.

Lemma to_uint_not_nil (n : nat) : Nat.to_uint n <> Decimal.Nil.
Proof.
  intros H. pose proof (DecimalNat.Unsigned.of_to n) as Hn.
  rewrite H in Hn. simpl in Hn. subst n. discriminate H.
Qed.

(** The decimal text of a number determines the number. *)
Lemma natToString_inj (n m : nat) : natToString n = natToString m -> n = m.
Proof.
  unfold natToString. intros H.
  apply (f_equal NilZero.uint_of_string) in H.
  rewrite !NilZero.usu in H by apply to_uint_not_nil.
  apply DecimalNat.Unsigned.to_uint_inj. congruence.
Qed.

Section ReadFacts.
Import ResultsPage.

Variable BACKEND_URL : JsValue.
Variable assessmentId : string.
Variable server : string -> Outcome (option Assessment).

Local Arguments String.append : simpl never.

(** X18. [fetchResults] always settles: whatever the server answers, no
    exception escapes the handler, exactly one request is sent (the GET of
    the assessment), and [loading] is false afterwards. *)
Theorem fetchResults_settles (w : World State) :
  let w' := run (fetchResults BACKEND_URL assessmentId server) w in
  snd (fetchResults BACKEND_URL assessmentId server w) = inr tt
  /\ loading (state w') = false
  /\ (exists events,
        trace w' = trace w ++ events
        /\ filter is_request events
           = [AxiosGet (assessmentUrl BACKEND_URL assessmentId)]).
Proof.
  cbv zeta. split.
  - unfold fetchResults, try_finally, try_catch, axios_get.
    unfold bind, emit, setResult, setLoading, update, throw, ret. simpl.
    now destruct (server _).
  - rewrite fetchResults_run. cbv zeta.
    destruct (server (assessmentUrl BACKEND_URL assessmentId)) as [data|props];
      simpl.
    + split; [reflexivity|]. eexists; split; reflexivity.
    + split; [reflexivity|]. eexists; split; reflexivity.
Qed.

(** X19. A rejected read leaves the stored result as it was: a page that
    held no assessment shows the not-found card, and a page that already
    held one keeps showing that assessment's report. *)
Theorem rejected_read_keeps_result
    (w : World State) (props : list (string * JsValue)) :
  server (assessmentUrl BACKEND_URL assessmentId) = Rejected props ->
  let w' := run (fetchResults BACKEND_URL assessmentId server) w in
  result (state w') = result (state w)
  /\ (result (state w) = None -> render (state w') = NotFoundView)
  /\ (forall previous,
        result (state w) = Some previous ->
        render (state w') = render (mkState false (Some previous))).
Proof.
  intros H. cbv zeta. rewrite fetchResults_run. cbv zeta. rewrite H. simpl.
  split; [reflexivity|]. split; intros; unfold render; simpl.
  - now rewrite H0.
  - now rewrite H0.
Qed.

(** X20. A read that resolves with a null or empty body shows the
    not-found card without any toast, and drops an assessment the page held
    before. *)
Theorem empty_body_is_silent_not_found (w : World State) :
  server (assessmentUrl BACKEND_URL assessmentId) = Resolved None ->
  let w' := run (fetchResults BACKEND_URL assessmentId server) w in
  render (state w') = NotFoundView
  /\ result (state w') = None
  /\ exists events, trace w' = trace w ++ events /\ filter is_toast events = [].
Proof.
  intros H. cbv zeta. rewrite fetchResults_run. cbv zeta. rewrite H. simpl.
  split; [reflexivity|]. split; [reflexivity|]. eexists. split; reflexivity.
Qed.

End ReadFacts.

Lemma getSeverityColor_default (severity : string) :
  ResultsPage.getSeverityColor severity = "bg-gray-100 text-gray-800 border-gray-200"
  <-> severity <> "HIGH" /\ severity <> "MEDIUM" /\ severity <> "LOW".
Proof.
  unfold ResultsPage.getSeverityColor.
  destruct (String.eqb_spec severity "HIGH") as [->|H1];
    [split; [discriminate | tauto]|].
  destruct (String.eqb_spec severity "MEDIUM") as [->|H2];
    [split; [discriminate | tauto]|].
  destruct (String.eqb_spec severity "LOW") as [->|H3];
    [split; [discriminate | tauto]|].
  tauto.
Qed.

(** X21. On every gap card the left border is red exactly for the severity
    "HIGH", amber exactly for "MEDIUM" and blue for every other severity,
    while the badge is neutral grey exactly for a severity that is none of
    "HIGH", "MEDIUM", "LOW": a gap of an unknown or differently-cased
    severity has the border of a low one and the grey badge. *)
Theorem gap_card_colours (gaps : list ResultsPage.Gap.t)
    (cards : list ResultsPage.GapCard) (card : ResultsPage.GapCard) :
  ResultsPage.renderGapsTab gaps = ResultsPage.GapCards cards ->
  In card cards ->
  let severity := ResultsPage.Gap.severity (ResultsPage.gap_shown card) in
  (ResultsPage.borderLeftColor card = "#dc2626" <-> severity = "HIGH")
  /\ (ResultsPage.borderLeftColor card = "#ca8a04" <-> severity = "MEDIUM")
  /\ (ResultsPage.borderLeftColor card = "#2563eb" <->
      severity <> "HIGH" /\ severity <> "MEDIUM")
  /\ (ResultsPage.badge_class card = "bg-gray-100 text-gray-800 border-gray-200"
      <-> severity <> "HIGH" /\ severity <> "MEDIUM" /\ severity <> "LOW").
Proof.
  unfold ResultsPage.renderGapsTab.
  destruct (List.length gaps =? 0)%nat; [discriminate|].
  intros [= <-] Hin. apply map_index_In in Hin.
  destruct Hin as (gap & k & _ & ->). cbv zeta. simpl.
  split; [|split; [|split; [|apply getSeverityColor_default]]].
  - destruct (String.eqb_spec (ResultsPage.Gap.severity gap) "HIGH") as [H|H];
      [tauto|].
    destruct (String.eqb (ResultsPage.Gap.severity gap) "MEDIUM");
      split; (discriminate || tauto).
  - destruct (String.eqb_spec (ResultsPage.Gap.severity gap) "HIGH") as [H|H].
    + split; [discriminate|]. rewrite H. discriminate.
    + destruct (String.eqb_spec (ResultsPage.Gap.severity gap) "MEDIUM");
        split; (discriminate || tauto).
  - destruct (String.eqb_spec (ResultsPage.Gap.severity gap) "HIGH") as [H|H].
    + split; [discriminate | tauto].
    + destruct (String.eqb_spec (ResultsPage.Gap.severity gap) "MEDIUM");
        split; (discriminate || tauto).
Qed.

(** X22. A non-empty gap list is rendered as one card per gap, in the order
    of the list: the card at position [i] shows the gap at position [i] and
    carries the test id "gap-item-i"; the test ids of the cards are pairwise
    distinct. *)
Theorem gap_cards_follow_gaps (gaps : list ResultsPage.Gap.t) :
  gaps <> [] ->
  exists cards,
    ResultsPage.renderGapsTab gaps = ResultsPage.GapCards cards
    /\ List.length cards = List.length gaps
    /\ (forall i card,
          nth_error cards i = Some card ->
          nth_error gaps i = Some (ResultsPage.gap_shown card)
          /\ ResultsPage.gap_testid card = ("gap-item-" ++ natToString i)%string)
    /\ NoDup (map ResultsPage.gap_testid cards).
Proof.
  intros Hne. unfold ResultsPage.renderGapsTab.
  assert (Hlen : (List.length gaps =? 0)%nat = false)
    by (destruct gaps; [congruence | reflexivity]).
  rewrite Hlen. clear Hne Hlen. rename gaps into l.
  match goal with
  | |- context [map_index ?f l] => set (cards := map_index f l)
  end.
  exists cards. split; [reflexivity|].
  split; [apply map_index_length|].
  assert (Hnth : forall i card,
            nth_error cards i = Some card ->
            nth_error l i = Some (ResultsPage.gap_shown card)
            /\ ResultsPage.gap_testid card = ("gap-item-" ++ natToString i)%string).
  { intros i card Hc. unfold cards in Hc. rewrite map_index_nth in Hc.
    destruct (nth_error l i) as [gap|]; [|discriminate].
    simpl in Hc. injection Hc as <-. split; reflexivity. }
  split; [exact Hnth|].
  apply NoDup_nth_error. intros i j Hi Hij.
  rewrite length_map in Hi. rewrite !nth_error_map in Hij.
  destruct (nth_error cards i) as [ci|] eqn:Hci;
    [|apply nth_error_None in Hci; lia].
  destruct (nth_error cards j) as [cj|] eqn:Hcj; [|discriminate].
  destruct (Hnth i ci Hci) as [_ Hti]. destruct (Hnth j cj Hcj) as [_ Htj].
  simpl in Hij. injection Hij as Hij. rewrite Hti, Htj in Hij.
  simpl in Hij. injection Hij as Hij. now apply natToString_inj.
Qed.

Lemma map_from_shown {A B} (f : A -> nat -> B) (g : B -> A) (l : list A) (i : nat) :
  (forall x k, g (f x k) = x) -> map g (map_from f i l) = l.
Proof.
  intros Hg. revert i; induction l as [|x l IH]; intros i; simpl;
    [reflexivity|]. now rewrite Hg, IH.
Qed.

Lemma renderSection_some {A B} (items : option (list A)) (card : A -> nat -> B)
    (cards : list B) :
  ResultsPage.renderSection items card = Some cards ->
  exists l, items = Some l /\ l <> [] /\ cards = map_index card l.
Proof.
  unfold ResultsPage.renderSection. destruct items as [l|]; [|discriminate].
  destruct l as [|x l]; [discriminate|]. simpl. intros [= <-].
  exists (x :: l). repeat split. discriminate.
Qed.

Lemma renderSection_none_iff {A B} (items : option (list A)) (card : A -> nat -> B) :
  ResultsPage.renderSection items card = None
  <-> items = None \/ items = Some [].
Proof.
  split; [|apply renderSection_none].
  unfold ResultsPage.renderSection. destruct items as [[|x l]|]; simpl; auto.
  discriminate.
Qed.

(** X23. In the recommendations tab a section is left out exactly when its
    list is absent or empty. A section that is there shows one card per
    entry in the order of the list; an expert's card has one badge
    "Article a" per relevant article, and a program's card has the
    "Learn More" link exactly when the website is not the text "N/A". *)
Theorem recommendation_sections (r : ResultsPage.Recommendations) :
  let tab := ResultsPage.renderRecommendationsTab r in
  (ResultsPage.expertsSection tab = None <->
   ResultsPage.experts r = None \/ ResultsPage.experts r = Some [])
  /\ (ResultsPage.programsSection tab = None <->
      ResultsPage.programs r = None \/ ResultsPage.programs r = Some [])
  /\ (forall cards,
        ResultsPage.expertsSection tab = Some cards ->
        ResultsPage.experts r = Some (map ResultsPage.expert_shown cards)
        /\ forall card,
             In card cards ->
             ResultsPage.article_badges card
             = map (fun article => ("Article " ++ article)%string)
                   (ResultsPage.Expert.relevant_articles
                      (ResultsPage.expert_shown card)))
  /\ (forall cards,
        ResultsPage.programsSection tab = Some cards ->
        ResultsPage.programs r = Some (map ResultsPage.program_shown cards)
        /\ forall card,
             In card cards ->
             (ResultsPage.learn_more card = None <->
              ResultsPage.Program.website (ResultsPage.program_shown card) = "N/A")
             /\ (ResultsPage.learn_more card = None
                 \/ ResultsPage.learn_more card
                    = Some (ResultsPage.Program.website
                              (ResultsPage.program_shown card)))).
Proof.
  cbv zeta. unfold ResultsPage.renderRecommendationsTab. simpl.
  split; [apply renderSection_none_iff|].
  split; [apply renderSection_none_iff|]. split.
  - intros cards Hc. apply renderSection_some in Hc.
    destruct Hc as (l & Hl & _ & ->). split.
    + rewrite Hl. f_equal. symmetry. now apply map_from_shown.
    + intros card Hin. apply map_index_In in Hin.
      now destruct Hin as (x & k & _ & ->).
  - intros cards Hc. apply renderSection_some in Hc.
    destruct Hc as (l & Hl & _ & ->). split.
    + rewrite Hl. f_equal. symmetry. now apply map_from_shown.
    + intros card Hin. apply map_index_In in Hin.
      destruct Hin as (x & k & _ & ->). simpl.
      destruct (String.eqb_spec (ResultsPage.Program.website x) "N/A") as [H|H];
        simpl; split; auto; split; (discriminate || tauto).
Qed.

Lemma getScoreColor_green (v : Q) :
  ResultsPage.getScoreColor v = "text-green-600" <-> (75 <= v)%Q.
Proof.
  unfold ResultsPage.getScoreColor. rewrite <- Qle_bool_iff.
  destruct (Qle_bool 75 v); [split; reflexivity|].
  destruct (Qle_bool 50 v); split; discriminate.
Qed.

(** X24. The score card has one row per entry of [category_scores], in the
    order of the entries, and every row is coloured with the cut points of
    the overall score: green exactly for a value of at least 75 and red
    exactly for a value below 50. *)
Theorem score_rows_follow_categories (score : ResultsPage.Score) :
  let card := ResultsPage.renderScoreCard score in
  map (fun row => (ResultsPage.row_label row, ResultsPage.row_value row))
      (ResultsPage.rows card)
  = ResultsPage.category_scores score
  /\ forall row,
       In row (ResultsPage.rows card) ->
       (ResultsPage.row_class row = "text-green-600"
        <-> (75 <= ResultsPage.row_value row)%Q)
       /\ (ResultsPage.row_class row = "text-red-600"
           <-> (ResultsPage.row_value row < 50)%Q).
Proof.
  cbv zeta. unfold ResultsPage.renderScoreCard. simpl. split.
  - rewrite map_map. rewrite <- (map_id (ResultsPage.category_scores score)) at 2.
    apply map_ext. now intros [category value].
  - intros row Hin. apply in_map_iff in Hin.
    destruct Hin as ([category value] & <- & _). simpl.
    split; [apply getScoreColor_green | apply getScoreColor_bottom].
Qed.

(* ================================================================== *)
(** * The further facts at the sample data *)
(* ================================================================== *)

(** X2 at an upload of 30720 bytes, after 1024 bytes and at the end. *)
Lemma percentCompleted_range_at_sample :
  (0 < 30720)%N /\ (1024 <= 30720)%N /\ (30720 <= 30720)%N
  /\ exists n n',
       UploadPage.percentCompleted (mkProgress 1024 (Some 30720%N))
       = UploadPage.PNum n
       /\ UploadPage.percentCompleted (mkProgress 30720 (Some 30720%N))
          = UploadPage.PNum n'
       /\ (50 <= n <= n')%Z /\ (n' <= 90)%Z.
Proof.
  split; [reflexivity|]. split; [discriminate|]. split; [discriminate|].
  destruct (percentCompleted_range 1024 30720 30720)
    as (n & n' & H1 & H2 & H3 & H4 & _);
    [reflexivity | discriminate | discriminate |].
  exists n, n'. repeat split; auto; apply H3.
Defined.

(** X4 at the sample form and one more PDF. *)
Lemma drop_then_remove_at_sample :
  UploadPage.isValidFile (mkFile "Deck.Pdf" 900) = true
  /\ UploadPage.files
       (state (run (UploadPage.removeFile 2)
                   (run (UploadPage.onDrop [mkFile "Deck.Pdf" 900]) Sample.form)))
     = Sample.documents.
Proof.
  split; [reflexivity|].
  exact (drop_then_remove_restores (mkFile "Deck.Pdf" 900) Sample.form eq_refl).
Defined.

Lemma only_text_files_rejected :
  forall file, In file [mkFile "notes.txt" 12; mkFile "pdf" 3] ->
               UploadPage.isValidFile file = false.
Proof. intros file [<-|[<-|[]]]; reflexivity. Defined.

(** X6 at a drop of a text file and of a file named "pdf". *)
Lemma rejected_drop_at_sample :
  (forall file, In file [mkFile "notes.txt" 12; mkFile "pdf" 3] ->
                UploadPage.isValidFile file = false)
  /\ state (run (UploadPage.onDrop [mkFile "notes.txt" 12; mkFile "pdf" 3])
                Sample.form)
     = state Sample.form
  /\ trace (run (UploadPage.onDrop [mkFile "notes.txt" 12; mkFile "pdf" 3])
                Sample.form)
     = [UploadPage.rejection_toast; ToastSuccess (JStr "0 file(s) added")].
Proof.
  split; [exact only_text_files_rejected|].
  exact (rejected_drop_changes_nothing
           [mkFile "notes.txt" 12; mkFile "pdf" 3] Sample.form
           only_text_files_rejected).
Defined.

(** X11 at the sample form and the server whose two calls resolve. *)
Lemma successful_submission_at_sample :
  UploadPage.submittable (state Sample.form)
  /\ state (run (UploadPage.handleSubmit Sample.backend Sample.server_ok)
                Sample.form)
     = UploadPage.mkState "Al-Ameen Digital" "" Sample.documents true
                          (UploadPage.PNum 100).
Proof.
  split; [exact sample_form_submittable|].
  exact (proj1 (successful_submission_stays_uploading
                  Sample.backend Sample.server_ok Sample.form
                  Sample.created Sample.created (JStr "a1")
                  sample_form_submittable eq_refl eq_refl eq_refl eq_refl)).
Defined.

(** X12 at a creation that answers with a body without [id]. *)
Lemma missing_id_at_sample :
  UploadPage.submittable (state Sample.form)
  /\ get (JObj [("status", JStr "pending")]) "id" = inr JUndefined
  /\ exists rest,
       trace (run (UploadPage.handleSubmit Sample.backend
                     (Sample.server_creates (JObj [("status", JStr "pending")])))
                  Sample.form)
       = [PreventDefault;
          AxiosPost "https://api.finregx.example/api/assessments"
            (UploadPage.createBody (state Sample.form)) [];
          AxiosPost "https://api.finregx.example/api/assessments/undefined/upload"
            (UploadPage.uploadBody (state Sample.form))
            [("Content-Type", "multipart/form-data")]]
         ++ rest
       /\ rest = [ToastSuccess (JStr "Documents analyzed successfully!");
                  SetTimeout (Navigate "/results/undefined") 500].
Proof.
  split; [exact sample_form_submittable|]. split; [reflexivity|].
  destruct (missing_id_uploads_to_undefined Sample.backend
              (Sample.server_creates (JObj [("status", JStr "pending")]))
              Sample.form (JObj [("status", JStr "pending")])
              sample_form_submittable eq_refl eq_refl) as (rest & Ht & Hrest).
  exists rest. split; [exact Ht|]. exact (Hrest Sample.created eq_refl).
Defined.

(** X13 at a creation that answers with [null]. *)
Lemma null_body_at_sample :
  UploadPage.submittable (state Sample.form)
  /\ state (run (UploadPage.handleSubmit Sample.backend
                   (Sample.server_creates JNull)) Sample.form)
     = UploadPage.reset (state Sample.form).
Proof.
  split; [exact sample_form_submittable|].
  exact (proj1 (null_creation_body_is_caught Sample.backend
                  (Sample.server_creates JNull) Sample.form JNull
                  sample_form_submittable eq_refl (or_introl eq_refl))).
Defined.

Lemma sample_create_fails (error : list (string * JsValue)) :
  UploadPage.fails_with Sample.backend (Sample.server_rejects error)
    (state Sample.form) (JObj error).
Proof.
  apply UploadPage.create_fails with (props := error); reflexivity.
Defined.

(** X14 at a creation that fails without a response. *)
Lemma network_failure_at_sample :
  UploadPage.submittable (state Sample.form)
  /\ UploadPage.fails_with Sample.backend
       (Sample.server_rejects Sample.network_error)
       (state Sample.form) (JObj Sample.network_error)
  /\ lookup "response" Sample.network_error = JUndefined
  /\ exists events,
       trace (run (UploadPage.handleSubmit Sample.backend
                     (Sample.server_rejects Sample.network_error))
                  Sample.form)
       = trace Sample.form ++ events
       /\ filter is_toast events
          = [ToastError (JStr "Failed to process documents")].
Proof.
  split; [exact sample_form_submittable|].
  split; [exact (sample_create_fails _)|]. split; [reflexivity|].
  exact (network_failure_shows_fallback Sample.backend
           (Sample.server_rejects Sample.network_error) Sample.form
           Sample.network_error sample_form_submittable
           (sample_create_fails _) eq_refl).
Defined.

(** X15 at a creation rejected with a list of validation messages. *)
Lemma structured_detail_at_sample :
  UploadPage.submittable (state Sample.form)
  /\ UploadPage.detail_of (JObj Sample.validation_error)
     = JArr [JObj [("msg", JStr "field required")]]
  /\ exists events,
       trace (run (UploadPage.handleSubmit Sample.backend
                     (Sample.server_rejects Sample.validation_error))
                  Sample.form)
       = trace Sample.form ++ events
       /\ filter is_toast events
          = [ToastError (JArr [JObj [("msg", JStr "field required")]])].
Proof.
  split; [exact sample_form_submittable|]. split; [reflexivity|].
  exact (structured_detail_is_passed_on Sample.backend
           (Sample.server_rejects Sample.validation_error) Sample.form
           (JObj Sample.validation_error)
           (JArr [JObj [("msg", JStr "field required")]])
           sample_form_submittable (sample_create_fails _) eq_refl
           (or_introl (ex_intro _ _ eq_refl))).
Defined.

(** X16 at the sample form, submitted while marked as uploading at 70. *)
Lemma ignores_uploading_at_sample :
  UploadPage.submittable
    (UploadPage.mkState "Al-Ameen Digital" "" Sample.documents true
                        (UploadPage.PNum 70))
  /\ run (UploadPage.handleSubmit Sample.backend Sample.server_ok)
         (mkWorld (UploadPage.mkState "Al-Ameen Digital" "" Sample.documents
                                      true (UploadPage.PNum 70)) [])
     = run (UploadPage.handleSubmit Sample.backend Sample.server_ok) Sample.form.
Proof.
  split; [exact sample_form_submittable|].
  exact (handleSubmit_ignores_uploading Sample.backend Sample.server_ok
           "Al-Ameen Digital" "" Sample.documents true (UploadPage.PNum 70) []
           sample_form_submittable).
Defined.

(** X17 after typing a name, dropping the sample documents and submitting. *)
Lemma navigations_follow_requests_at_sample :
  UploadPage.reachable Sample.backend Sample.server_ok
    (run (UploadPage.handle Sample.backend Sample.server_ok UploadPage.Submit)
       (run (UploadPage.handle Sample.backend Sample.server_ok
               (UploadPage.Drop Sample.documents))
          (run (UploadPage.handle Sample.backend Sample.server_ok
                  (UploadPage.TypeName "Al-Ameen Digital"))
               (mkWorld UploadPage.initial []))))
  /\ (2 * 1 <= 2)%nat.
Proof.
  assert (Hr : UploadPage.reachable Sample.backend Sample.server_ok
                 (run (UploadPage.handle Sample.backend Sample.server_ok
                         UploadPage.Submit)
                    (run (UploadPage.handle Sample.backend Sample.server_ok
                            (UploadPage.Drop Sample.documents))
                       (run (UploadPage.handle Sample.backend Sample.server_ok
                               (UploadPage.TypeName "Al-Ameen Digital"))
                            (mkWorld UploadPage.initial [])))))
    by (do 3 apply UploadPage.reach_step; apply UploadPage.reach_init).
  split; [exact Hr|].
  exact (navigations_follow_requests Sample.backend Sample.server_ok _ Hr).
Defined.

(** X19 at a rejected first read. *)
Lemma rejected_read_at_sample :
  Sample.server_read_fails "Assessment not found"
    (ResultsPage.assessmentUrl Sample.backend "a1")
  = Rejected (Sample.error_with_detail "Assessment not found")
  /\ ResultsPage.render
       (state (run (ResultsPage.fetchResults Sample.backend "a1"
                      (Sample.server_read_fails "Assessment not found"))
                   Sample.results))
     = ResultsPage.NotFoundView.
Proof.
  split; [reflexivity|].
  exact (proj1 (proj2 (rejected_read_keeps_result Sample.backend "a1"
                         (Sample.server_read_fails "Assessment not found")
                         Sample.results
                         (Sample.error_with_detail "Assessment not found")
                         eq_refl)) eq_refl).
Defined.

(** X20 at a read that resolves with an empty body. *)
Lemma empty_body_at_sample :
  Sample.server_read_empty (ResultsPage.assessmentUrl Sample.backend "a1")
  = Resolved None
  /\ ResultsPage.render
       (state (run (ResultsPage.fetchResults Sample.backend "a1"
                      Sample.server_read_empty) Sample.results))
     = ResultsPage.NotFoundView.
Proof.
  split; [reflexivity|].
  exact (proj1 (empty_body_is_silent_not_found Sample.backend "a1"
                  Sample.server_read_empty Sample.results eq_refl)).
Defined.

(** X21 at the card of the sample gap whose severity is written
    "medium". *)
Lemma gap_card_colours_at_sample :
  exists cards card,
    ResultsPage.renderGapsTab Sample.gaps = ResultsPage.GapCards cards
    /\ In card cards
    /\ ResultsPage.Gap.severity (ResultsPage.gap_shown card) = "medium"
    /\ ResultsPage.borderLeftColor card = "#2563eb"
    /\ ResultsPage.badge_class card = "bg-gray-100 text-gray-800 border-gray-200".
Proof.
  eexists. eexists. split; [reflexivity|].
  assert (Hin : In (ResultsPage.mkGapCard "gap-item-1" "#2563eb"
                      "bg-gray-100 text-gray-800 border-gray-200"
                      (ResultsPage.Gap.mk "Board composition" "medium" "Governance"
                         "No independent directors named"
                         "Two independent directors"
                         "Appoint independent directors"))
                   (map_index
                      (fun gap index =>
                         ResultsPage.mkGapCard
                           ("gap-item-" ++ natToString index)
                           (if String.eqb (ResultsPage.Gap.severity gap) "HIGH"
                            then "#dc2626"
                            else if String.eqb (ResultsPage.Gap.severity gap) "MEDIUM"
                                 then "#ca8a04" else "#2563eb")
                           (ResultsPage.getSeverityColor (ResultsPage.Gap.severity gap))
                           gap)
                      Sample.gaps))
    by (right; left; reflexivity).
  split; [exact Hin|]. split; [reflexivity|].
  destruct (gap_card_colours Sample.gaps _ _ eq_refl Hin) as (_ & _ & Hb & Hg).
  split.
  - apply Hb. split; discriminate.
  - apply Hg. repeat split; discriminate.
Defined.

(** X22 at the two sample gaps. *)
Lemma gap_cards_at_sample :
  Sample.gaps <> []
  /\ exists cards,
       ResultsPage.renderGapsTab Sample.gaps = ResultsPage.GapCards cards
       /\ List.length cards = 2%nat
       /\ NoDup (map ResultsPage.gap_testid cards).
Proof.
  assert (Hne : Sample.gaps <> []) by discriminate.
  split; [exact Hne|].
  destruct (gap_cards_follow_gaps Sample.gaps Hne) as (cards & Hc & Hl & _ & Hd).
  exists cards. split; [exact Hc|]. split; [exact Hl | exact Hd].
Defined.
